(** * The drop server: login gate, session store, attempt throttle, file surface

    A shallow embedding of [server/server.js] (the Express application) and of
    the file partition of [client/src/components/Homepage.js].

    Requests are modelled as the route callbacks see them, that is after the
    application-wide middleware (CORS, body parsers) has admitted and parsed
    them.  Each callback becomes a function from the request and the process
    state to a response and the next state; requests are handled one at a
    time.  The upload directory is a finite map from names to entries, a name
    being a single path component. *)

From Stdlib Require Import ZArith String Ascii List Bool Lia.
From stdpp Require Import base gmap sets list strings pretty.

Local Open Scope Z_scope.
Set Warnings "-register-all,-clear-no-such-hyp".

(** ** JavaScript values *)

Module JS.

(** The values a parsed JSON or form body is made of.  Numbers are the
    integers (the page sends grid indices): on them [===] is equality and
    ToString prints the decimal digits.  An object lists its own properties,
    each key once. *)
Inductive value : Type :=
| Undefined
| Null
| Boolean (b : bool)
| Number (n : Z)
| Str (s : string)
| Array (items : list value)
| Object (props : list (string * value)).

(** ToBoolean, the test behind [!v] and [v || w]. *)
Definition truthy (v : value) : bool :=
  match v with
  | Undefined | Null => false
  | Boolean b => b
  | Number n => negb (n =? 0)
  | Str s => negb (String.eqb s "")
  | Array _ | Object _ => true
  end.

(** [Array.isArray(v)] *)
Definition isArray (v : value) : bool :=
  match v with Array _ => true | _ => false end.

(** [v === w] where one side comes from the request and the other from the
    program: primitives compare by value, and an array or object of the
    request is never the same object as anything the program holds. *)
Definition strict_equals (v w : value) : bool :=
  match v, w with
  | Undefined, Undefined => true
  | Null, Null => true
  | Boolean a, Boolean b => Bool.eqb a b
  | Number a, Number b => a =? b
  | Str a, Str b => String.eqb a b
  | _, _ => false
  end.

(** ToString; an array prints as its array_items joined by commas, [undefined]
    and [null] array_items printing as nothing. *)
Fixpoint to_string (v : value) : string :=
  match v with
  | Undefined => "undefined"
  | Null => "null"
  | Boolean true => "true"
  | Boolean false => "false"
  | Number n => pretty n
  | Str s => s
  | Array items =>
      (fix commas (l : list value) : string :=
         match l with
         | [] => ""
         | x :: rest =>
             let piece := match x with
                          | Undefined | Null => ""
                          | _ => to_string x
                          end in
             match rest with
             | [] => piece
             | _ :: _ => piece +:+ "," +:+ commas rest
             end
         end) items
  | Object _ => "[object Object]"
  end.

(** [items.join(sep)] *)
Fixpoint join (sep : string) (items : list value) : string :=
  match items with
  | [] => ""
  | x :: rest =>
      let piece := match x with
                   | Undefined | Null => ""
                   | _ => to_string x
                   end in
      match rest with
      | [] => piece
      | _ :: _ => piece +:+ sep +:+ join sep rest
      end
  end.

(** [v.key] for a key that is no built-in property name: the own property of
    an object, [undefined] on anything else. *)
Definition property (v : value) (key : string) : value :=
  match v with
  | Object props =>
      match List.find (fun kv => String.eqb (fst kv) key) props with
      | Some kv => snd kv
      | None => Undefined
      end
  | _ => Undefined
  end.

(** [items[i]] *)
Definition index (items : list value) (i : nat) : value :=
  match items !! i with
  | Some v => v
  | None => Undefined
  end.

(** [items.every((value, index) => p(value, index))] *)
Fixpoint every_from (p : value -> nat -> bool) (i : nat) (items : list value) : bool :=
  match items with
  | [] => true
  | v :: rest => p v i && every_from p (S i) rest
  end.

Definition every (p : value -> nat -> bool) (items : list value) : bool :=
  every_from p 0 items.

(** The array_items of an array value. *)
Definition array_items (v : value) : list value :=
  match v with Array items => items | _ => [] end.

(** An object literal with one string-valued field, [{ message: m }]. *)
Definition message (m : string) : value := Object [("message", Str m)].

End JS.

Import JS.

(** ** Requests and responses *)

(** A value of the parsed query string ([req.query.token]): a string, or an
    array or object when the parameter is repeated or bracketed. *)
Inductive qsval : Type :=
| QString (s : string)
| QArray (items : list qsval)
| QObject (fields : list (string * qsval)).

(** The multipart part named [file] as multer hands it to the storage engine. *)
Record upload_part := UploadPart {
  originalname : string;
  content : list Byte.byte
}.

Record request := Request {
  ip : string;                          (* req.ip *)
  origin : option string;               (* req.headers.origin *)
  authorization : option string;        (* req.headers['authorization'] *)
  query_token : option qsval;           (* req.query.token *)
  body : value;                         (* req.body *)
  params_filename : string;             (* req.params.filename *)
  params_id : string;                   (* req.params.id *)
  file_part : option upload_part        (* the multipart field 'file' *)
}.

Inductive payload : Type :=
| Json (v : value)                                          (* res.json(v) *)
| Attachment (filename : string) (bytes : list Byte.byte)   (* res.download *)
| Inline (bytes : list Byte.byte)                           (* res.sendFile *)
| ErrorPage.                                                (* Express's own error page *)

Record response := Response {
  status : Z;
  sent : payload
}.

(** [res.status(code).json({ message })] and [res.json(v)] *)
Definition status_message (code : Z) (m : string) : response :=
  Response code (Json (message m)).

Definition ok_json (v : value) : response := Response 200 (Json v).

(** ** Process state *)

(** An entry of the upload directory. *)
Inductive entry : Type :=
| File (bytes : list Byte.byte)
| Dir.

Definition isFile (e : entry) : bool :=
  match e with File _ => true | Dir => false end.

(** What [path.join(UPLOAD_DIR, name)] names in the directory [d], for a
    [name] that is a single path component: the directory itself for the
    empty name and for ".", its parent for "..", and otherwise the entry of
    that name, if there is one. *)
Definition resolve (d : gmap string entry) (name : string) : option entry :=
  if String.eqb name "" || String.eqb name "." || String.eqb name ".."
  then Some Dir
  else d !! name.

Section Server.

(** The record stores (notes.json, passwords.json, and the clock their ids
    come from) are kept abstract: their contents are some [store]. *)
Variable store : Type.

Record server := Server {
  imageLoginAttempts : gmap string Z;
  authenticatedUsers : gset string;
  adminPasswordAttempts : gmap string Z;
  uploads : gmap string entry;          (* the files under UPLOAD_DIR *)
  data : store                          (* the files under DATA_DIR *)
}.

Definition set_imageLoginAttempts (m : gmap string Z) (st : server) : server :=
  Server m (authenticatedUsers st) (adminPasswordAttempts st) (uploads st) (data st).

Definition set_authenticatedUsers (u : gset string) (st : server) : server :=
  Server (imageLoginAttempts st) u (adminPasswordAttempts st) (uploads st) (data st).

Definition set_adminPasswordAttempts (m : gmap string Z) (st : server) : server :=
  Server (imageLoginAttempts st) (authenticatedUsers st) m (uploads st) (data st).

Definition set_uploads (d : gmap string entry) (st : server) : server :=
  Server (imageLoginAttempts st) (authenticatedUsers st) (adminPasswordAttempts st) d (data st).

Definition set_data (x : store) (st : server) : server :=
  Server (imageLoginAttempts st) (authenticatedUsers st) (adminPasswordAttempts st) (uploads st) x.

End Server.

Arguments Server {store}.
Arguments imageLoginAttempts {store}.
Arguments authenticatedUsers {store}.
Arguments adminPasswordAttempts {store}.
Arguments uploads {store}.
Arguments data {store}.
Arguments set_imageLoginAttempts {store}.
Arguments set_authenticatedUsers {store}.
Arguments set_adminPasswordAttempts {store}.
Arguments set_uploads {store}.
Arguments set_data {store}.

(** A process as [node server.js] starts it over the directories [d] and [x]
    found on disk: no attempt recorded, no token registered. *)
Definition initial_server {store : Type} (d : gmap string entry) (x : store) : server store :=
  Server ∅ ∅ ∅ d x.

(** Stopping the process and starting it again keeps what is on disk only. *)
Definition restart {store : Type} (st : server store) : server store :=
  initial_server (uploads st) (data st).

(** ** Configuration *)

(** What [parseInt] made of the two environment variables; [None] is NaN (the
    variable is unset or starts with no digit). *)
Record environment := Environment {
  parseInt_MAX_IMAGE_LOGIN_ATTEMPTS : option Z;
  parseInt_MAX_ADMIN_PASSWORD_ATTEMPTS : option Z
}.

(** [parsed || d] on a number: NaN and 0 are falsy. *)
Definition or_default (parsed : option Z) (d : Z) : Z :=
  match parsed with
  | Some n => if n =? 0 then d else n
  | None => d
  end.

Definition CORRECT_IMAGE_SEQUENCE : list value :=
  [Number 2; Number 6; Number 4; Number 8].

Definition MAX_IMAGE_LOGIN_ATTEMPTS (env : environment) : Z :=
  or_default (parseInt_MAX_IMAGE_LOGIN_ATTEMPTS env) 5.

Definition MAX_ADMIN_PASSWORD_ATTEMPTS (env : environment) : Z :=
  or_default (parseInt_MAX_ADMIN_PASSWORD_ATTEMPTS env) 5.

(** ** Attempt counters *)

(** [if (!attempts[key]) attempts[key] = 0] *)
Definition initialise (key : string) (attempts : gmap string Z) : gmap string Z :=
  match attempts !! key with
  | Some n => if n =? 0 then <[key := 0]> attempts else attempts
  | None => <[key := 0]> attempts
  end.

(** [attempts[key]] read as a number, a key never written reading as 0 (which
    is what [initialise] stores for it before any comparison). *)
Definition count (attempts : gmap string Z) (key : string) : Z :=
  default 0 (attempts !! key).

(** [attempts[key]++] *)
Definition increment (key : string) (attempts : gmap string Z) : gmap string Z :=
  <[key := count attempts key + 1]> attempts.

(** ** Sequence verification *)

(** [imageSequence.length === expected.length &&
     imageSequence.every((value, index) => value === expected[index])] *)
Definition sequence_matches (expected imageSequence : list value) : bool :=
  Nat.eqb (length imageSequence) (length expected)
  && every (fun v i => strict_equals v (JS.index expected i)) imageSequence.

(** [`user_${imageSequence.join('_')}`] *)
Definition token_of (imageSequence : list value) : string :=
  "user_" +:+ join "_" imageSequence.

(** The token a response to POST /login carries when it is a success. *)
Definition issued_token (r : response) : option string :=
  match sent r with
  | Json data =>
      if status r =? 200
      then match property data "token" with
           | Str t => Some t
           | _ => None
           end
      else None
  | _ => None
  end.

(** ** The access gateway *)

(** [req.headers['authorization'] || req.query.token] *)
Definition bearer_token (req : request) : option qsval :=
  match authorization req with
  | Some h => if String.eqb h "" then query_token req else Some (QString h)
  | None => query_token req
  end.

(** [!token] *)
Definition no_token (token : option qsval) : bool :=
  match token with
  | None => true
  | Some (QString s) => String.eqb s ""
  | Some _ => false
  end.

(** What the middleware decides: a response of its own, or [next()] with
    [req.user = { id }]. *)
Inductive gate : Type :=
| Rejected (r : response)
| Authenticated (id : string).

(** The routes the application declares. *)
Inductive route : Type :=
| GET_test
| POST_login
| POST_upload
| GET_download
| GET_files
| GET_notes
| POST_notes
| PUT_notes
| DELETE_notes
| GET_passwords
| GET_images
| POST_admin_check_password
| POST_passwords
| DELETE_passwords.

#[global] Instance route_eq_dec : EqDecision route.
Proof. solve_decision. Defined.

Section Handlers.

Variable env : environment.
Variable store : Type.

(** The callbacks of the notes and passwords routes, past the gateway: one
    function of the route reached and of what those callbacks read, namely
    [req.params.id], [req.body], [req.user.id] and the store. *)
Variable record_store : route -> string -> value -> string -> store -> response * store.

(** [bcrypt.compare(password, ADMIN_PASSWORD_HASH)]: [None] when it throws. *)
Variable bcrypt_compare : value -> option bool.

Local Abbreviation server := (server store).

(** [authenticatedUsers.has(token)]: only a string can be a member. *)
Definition has_token (st : server) (token : option qsval) : option string :=
  match token with
  | Some (QString t) =>
      if bool_decide (t ∈ authenticatedUsers st) then Some t else None
  | _ => None
  end.

Definition authenticateToken (req : request) (st : server) : gate :=
  let token := bearer_token req in
  if no_token token then
    Rejected (status_message 401 "Authentication token required")
  else
    match has_token st token with
    | Some id => Authenticated id
    | None => Rejected (status_message 403 "Invalid or expired token")
    end.

(** A route declared with [authenticateToken] before its callback. *)
Definition behind_gateway
    (callback : string -> request -> server -> response * server)
    (req : request) (st : server) : response * server :=
  match authenticateToken req st with
  | Rejected r => (r, st)
  | Authenticated id => callback id req st
  end.

(** *** POST /login *)

Definition login (req : request) (st : server) : response * server :=
  let clientKey := ip req in
  let st := set_imageLoginAttempts (initialise clientKey (imageLoginAttempts st)) st in
  if count (imageLoginAttempts st) clientKey >=? MAX_IMAGE_LOGIN_ATTEMPTS env then
    (status_message 429 "Too many login attempts. Please try again later.", st)
  else
    let imageSequence := property (body req) "imageSequence" in
    if negb (truthy imageSequence) || negb (isArray imageSequence) then
      (status_message 400 "Image sequence is required and must be an array.", st)
    else
      let isCorrect := sequence_matches CORRECT_IMAGE_SEQUENCE (array_items imageSequence) in
      if isCorrect then
        let st := set_imageLoginAttempts (<[clientKey := 0]> (imageLoginAttempts st)) st in
        let token := token_of (array_items imageSequence) in
        let st := set_authenticatedUsers ({[token]} ∪ authenticatedUsers st) st in
        (ok_json (Object [("message", Str "Login successful!"); ("token", Str token)]), st)
      else
        let st := set_imageLoginAttempts (increment clientKey (imageLoginAttempts st)) st in
        (status_message 401 "Incorrect image sequence.", st).

(** *** GET /test *)

Definition test (req : request) (st : server) : response * server :=
  let o := match origin req with Some o => Str o | None => Undefined end in
  (ok_json (Object [("message", Str "CORS is working!"); ("origin", o)]), st).

(** *** POST /upload

    [upload.single('file')] runs before the callback: multer passes over a
    part that has no file name, and its disk storage writes any other to
    [UPLOAD_DIR/originalname]; opening a directory for writing fails, and the
    error goes to Express's error handler. *)
Definition upload (id : string) (req : request) (st : server) : response * server :=
  match file_part req with
  | None => (status_message 400 "No file uploaded.", st)
  | Some part =>
      if String.eqb (originalname part) "" then
        (status_message 400 "No file uploaded.", st)
      else
        match resolve (uploads st) (originalname part) with
        | Some Dir => (Response 500 ErrorPage, st)
        | _ =>
            (ok_json (Object [("message", Str "File uploaded successfully!");
                              ("filename", Str (originalname part))]),
             set_uploads (<[originalname part := File (content part)]> (uploads st)) st)
        end
  end.

(** *** GET /download/:filename *)

Definition download (id : string) (req : request) (st : server) : response * server :=
  let filename := params_filename req in
  match resolve (uploads st) filename with
  | None => (status_message 404 "File not found.", st)
  | Some (File bytes) => (Response 200 (Attachment filename bytes), st)
  | Some Dir => (status_message 500 "Error downloading file.", st)
  end.

(** *** GET /files *)

(** [fs.readdir(UPLOAD_DIR)]: the names of the entries, in the order the
    directory yields them. *)
Definition readdir (d : gmap string entry) : list string :=
  (map_to_list d).*1.

(** [fs.statSync(path.join(UPLOAD_DIR, name)).isFile()] *)
Definition stat_isFile (d : gmap string entry) (name : string) : bool :=
  match d !! name with
  | Some e => isFile e
  | None => false
  end.

Definition fileNames (d : gmap string entry) : list string :=
  List.filter (stat_isFile d) (readdir d).

Definition files (id : string) (req : request) (st : server) : response * server :=
  (ok_json (Object [("files", Array (map Str (fileNames (uploads st))))]), st).

(** *** GET /images/:filename *)

Definition images (id : string) (req : request) (st : server) : response * server :=
  let filename := params_filename req in
  match resolve (uploads st) filename with
  | None => (status_message 404 "Image not found.", st)
  | Some (File bytes) => (Response 200 (Inline bytes), st)
  | Some Dir => (status_message 500 "Error sending image.", st)
  end.

(** *** POST /admin/check-password *)

Definition admin_check_password (id : string) (req : request) (st : server)
  : response * server :=
  let clientKey := id in
  let st := set_adminPasswordAttempts (initialise clientKey (adminPasswordAttempts st)) st in
  if count (adminPasswordAttempts st) clientKey >=? MAX_ADMIN_PASSWORD_ATTEMPTS env then
    (status_message 429 "Too many admin password attempts. Please try again later.", st)
  else
    let password := property (body req) "password" in
    if negb (truthy password) then
      (status_message 400 "Password is required.", st)
    else
      match bcrypt_compare password with
      | Some true =>
          (ok_json (Object [("success", Boolean true)]),
           set_adminPasswordAttempts (<[clientKey := 0]> (adminPasswordAttempts st)) st)
      | Some false =>
          (status_message 403 "Incorrect admin password.",
           set_adminPasswordAttempts (increment clientKey (adminPasswordAttempts st)) st)
      | None => (status_message 500 "Error verifying password.", st)
      end.

(** *** The notes and passwords routes *)

Definition records (r : route) (id : string) (req : request) (st : server)
  : response * server :=
  let (res, x) := record_store r (params_id req) (body req) id (data st) in
  (res, set_data x st).

(** *** The application: each route with the middleware it is declared with *)

Definition handle (r : route) : request -> server -> response * server :=
  match r with
  | GET_test => test
  | POST_login => login
  | POST_upload => behind_gateway upload
  | GET_download => behind_gateway download
  | GET_files => behind_gateway files
  | GET_images => behind_gateway images
  | POST_admin_check_password => behind_gateway admin_check_password
  | GET_notes | POST_notes | PUT_notes | DELETE_notes
  | GET_passwords | POST_passwords | DELETE_passwords => behind_gateway (records r)
  end.

(** The state after a sequence of requests, handled in order. *)
Fixpoint run (trace : list (route * request)) (st : server) : server :=
  match trace with
  | [] => st
  | (r, req) :: rest => run rest (snd (handle r req st))
  end.

(** The tokens the logins of a sequence of requests returned. *)
Fixpoint issued (trace : list (route * request)) (st : server) : list string :=
  match trace with
  | [] => []
  | (r, req) :: rest =>
      let out := handle r req st in
      match r, issued_token (fst out) with
      | POST_login, Some t => t :: issued rest (snd out)
      | _, _ => issued rest (snd out)
      end
  end.

End Handlers.

Arguments has_token {store}.
Arguments authenticateToken {store}.
Arguments behind_gateway {store}.
Arguments login env {store}.
Arguments test {store}.
Arguments upload {store}.
Arguments download {store}.
Arguments files {store}.
Arguments images {store}.
Arguments admin_check_password env {store}.
Arguments records {store}.
Arguments handle env {store}.
Arguments run env {store}.
Arguments issued env {store}.

(** The state after a sequence of POST /login requests, handled in order. *)
Fixpoint logins {store : Type} (env : environment) (reqs : list request)
    (st : server store) : server store :=
  match reqs with
  | [] => st
  | req :: rest => logins env rest (snd (login env req st))
  end.

(** A login request that submits an array other than the secret. *)
Definition wrong_sequence (req : request) : Prop :=
  exists items : list value,
    property (body req) "imageSequence" = Array items
    /\ sequence_matches CORRECT_IMAGE_SEQUENCE items = false.

(** The gateway lets the request through. *)
Definition authenticated {store : Type} (req : request) (st : server store) : Prop :=
  exists id : string, authenticateToken req st = Authenticated id.

(** The routes declared with [authenticateToken]. *)
Definition protected_routes : list route :=
  [POST_upload; GET_download; GET_files; GET_images;
   GET_notes; POST_notes; PUT_notes; DELETE_notes;
   GET_passwords; POST_passwords; DELETE_passwords;
   POST_admin_check_password].

(** The request [req] carrying the token [t] in the Authorization header
    only, and in the [token] query parameter only. *)
Definition in_header (t : string) (req : request) : request :=
  Request (ip req) (origin req) (Some t) None
          (body req) (params_filename req) (params_id req) (file_part req).

Definition in_query (t : string) (req : request) : request :=
  Request (ip req) (origin req) None (Some (QString t))
          (body req) (params_filename req) (params_id req) (file_part req).

(** ** The client's file columns (Homepage.js)

    Strings are byte strings here; [toLowerCase] maps the ASCII capitals, which
    are the only characters that lower-case to the letters of the extensions
    below. *)

Module Homepage.

Definition imageExtensions : list string :=
  [".jpg"; ".jpeg"; ".png"; ".gif"; ".svg"; ".webp"].

(** [s.lastIndexOf(c)]: the index of the last [c] in [s], or -1. *)
Fixpoint lastIndexOf_from (c : ascii) (s : string) (i found : Z) : Z :=
  match s with
  | EmptyString => found
  | String a rest => lastIndexOf_from c rest (i + 1) (if Ascii.eqb a c then i else found)
  end.

Definition lastIndexOf (c : ascii) (s : string) : Z :=
  lastIndexOf_from c s 0 (-1).

(** [s.substring(start)]: a negative start counts as 0, one past the end as
    the end. *)
Fixpoint drop_chars (n : nat) (s : string) : string :=
  match n, s with
  | O, _ => s
  | S _, EmptyString => EmptyString
  | S k, String _ rest => drop_chars k rest
  end.

Definition substring (s : string) (start : Z) : string :=
  drop_chars (Z.to_nat start) s.

Definition lower (c : ascii) : ascii :=
  let n := N_of_ascii c in
  if ((65 <=? n) && (n <=? 90))%N then ascii_of_N (n + 32) else c.

Fixpoint toLowerCase (s : string) : string :=
  match s with
  | EmptyString => EmptyString
  | String a rest => String (lower a) (toLowerCase rest)
  end.

(** Whether the character [c] occurs in [s]; used to say what an extension
    is. *)
Fixpoint has_char (c : ascii) (s : string) : bool :=
  match s with
  | EmptyString => false
  | String a rest => Ascii.eqb a c || has_char c rest
  end.

(** [file.substring(file.lastIndexOf('.')).toLowerCase()] *)
Definition extension (file : string) : string :=
  toLowerCase (substring file (lastIndexOf "." file)).

(** [imageExtensions.includes(extension)] *)
Definition isImage (file : string) : bool :=
  existsb (String.eqb (extension file)) imageExtensions.

(** The callback of [data.files.filter] in [fetchAndFilterFiles]. *)
Definition keeps (fileTypeFilter file : string) : bool :=
  if String.eqb fileTypeFilter "image" then isImage file else negb (isImage file).

Definition filterFiles (fileTypeFilter : string) (fileList : list string) : list string :=
  List.filter (keeps fileTypeFilter) fileList.

(** [data.files] of a JSON body, as the strings it holds. *)
Definition data_files (data : value) : list string :=
  omap (fun v => match v with Str s => Some s | _ => None end)
       (array_items (property data "files")).

(** What [fetchAndFilterFiles] passes to [setFiles] for the response [r] of
    GET /files; [None] when it shows an error instead ([!response.ok]). *)
Definition fetchAndFilterFiles (fileTypeFilter : string) (r : response)
  : option (list string) :=
  match sent r with
  | Json data =>
      if (200 <=? status r) && (status r <=? 299)
      then Some (filterFiles fileTypeFilter (data_files data))
      else None
  | _ => None
  end.

(** The token the page keeps in [localStorage] under [authToken]. *)
Record page := Page { authToken : option string }.

(** [handleLogin] on the response of POST /login. *)
Definition handleLogin (r : response) (pg : page) : page :=
  match sent r with
  | Json data =>
      if (200 <=? status r) && (status r <=? 299)
      then Page (Some (to_string (property data "token")))
      else pg
  | _ => pg
  end.

(** [handleLogout]: the page forgets its token; no request is sent. *)
Definition handleLogout (pg : page) : page := Page None.

End Homepage.

(** ** A sample deployment, to run the model on

    No environment variable set, empty directories, record callbacks that
    answer with an empty object, and an admin password nobody guesses. *)

Definition default_env : environment := Environment None None.

Definition no_records (r : route) (id : string) (b : value) (user : string) (x : unit)
  : response * unit :=
  (ok_json (Object []), x).

Definition no_password (password : value) : option bool := Some false.

Definition fresh : server unit := initial_server ∅ tt.

(** POST /login from the address [k] with the body [{ imageSequence: l }]. *)
Definition login_request (k : string) (l : list Z) : request :=
  Request k None None None (Object [("imageSequence", Array (map Number l))]) "" "" None.

(** A request from the address [k] with no body and no token. *)
Definition bare_request (k : string) : request :=
  Request k None None None (Object []) "" "" None.

(** POST /upload of the bytes [c] under the name [f], and GET of the file
    named [f] (download or inline), both presenting the token [t] in the
    header. *)
Definition upload_request (t f : string) (c : list Byte.byte) : request :=
  Request "10.0.0.7" None (Some t) None (Object []) "" "" (Some (UploadPart f c)).

Definition file_request (t f : string) : request :=
  Request "10.0.0.7" None (Some t) None (Object []) f "" None.

(** An upload directory holding three files and a sub-directory. *)
Definition sample_uploads : gmap string entry :=
  <["a.png" := File [Byte.x89; Byte.x50]]>
    (<["b.txt" := File [Byte.x68; Byte.x69]]>
       (<["c.JPG" := File [Byte.xff; Byte.xd8]]>
          (<["thumbs" := Dir]> ∅))).

(** A process in which one login has succeeded, over the directory [d]. *)
Definition logged_in (d : gmap string entry) : server unit :=
  snd (login default_env (login_request "10.0.0.7" [2; 6; 4; 8]) (initial_server d tt)).

(** ** The record stores (notes.json, passwords.json)

    The callbacks of the notes and passwords routes, past the gateway.  A
    data file is taken as the server leaves it: absent, unreadable, or
    holding an object from identities to arrays of entries. *)

Module Records.

(** [{ id, content }] *)
Record note := Note {
  note_id : string;
  note_content : string
}.

(** [{ id, name, link, username, password }]; the four fields are whatever
    the body of the request held. *)
Record password_entry := PasswordEntry {
  entry_id : string;
  entry_name : value;
  entry_link : value;
  entry_username : value;
  entry_password : value
}.

Inductive data_file (A : Type) : Type :=
| Absent
| Unreadable
| Holds (data : gmap string (list A)).

Arguments Absent {A}.
Arguments Unreadable {A}.
Arguments Holds {A}.

(** [readData(file)]: the empty object when the file does not exist or does
    not parse. *)
Definition readData {A : Type} (file : data_file A) : gmap string (list A) :=
  match file with
  | Absent => ∅
  | Unreadable => ∅
  | Holds data => data
  end.

(** [writeData(file, data)] *)
Definition writeData {A : Type} (data : gmap string (list A)) : data_file A :=
  Holds data.

Record db := Db {
  NOTES_FILE : data_file note;
  PASSWORDS_FILE : data_file password_entry
}.

Definition note_json (n : note) : value :=
  Object [("id", Str (note_id n)); ("content", Str (note_content n))].

Definition entry_json (e : password_entry) : value :=
  Object [("id", Str (entry_id e)); ("name", entry_name e); ("link", entry_link e);
          ("username", entry_username e); ("password", entry_password e)].

(** [all[id] || []] *)
Definition of_user {A : Type} (all : gmap string (list A)) (id : string) : list A :=
  match all !! id with
  | Some l => l
  | None => []
  end.

(** [list.findIndex(p)] *)
Fixpoint findIndex_from {A : Type} (p : A -> bool) (l : list A) (i : Z) : Z :=
  match l with
  | [] => -1
  | x :: rest => if p x then i else findIndex_from p rest (i + 1)
  end.

Definition findIndex {A : Type} (p : A -> bool) (l : list A) : Z :=
  findIndex_from p l 0.

(** [list.splice(idx, 1)], for an index that [findIndex] found. *)
Definition splice1 {A : Type} (idx : Z) (l : list A) : list A :=
  delete (Z.to_nat idx) l.

(** [note.content = content] on the note that [list.find] returned: the
    first one with that id, changed where it sits in the list. *)
Fixpoint set_content (id content : string) (l : list note) : list note :=
  match l with
  | [] => []
  | n :: rest =>
      if String.eqb (note_id n) id
      then Note (note_id n) content :: rest
      else n :: set_content id content rest
  end.

(** GET /notes *)
Definition notes_get (user : string) (x : db) : response * db :=
  let allNotes := readData (NOTES_FILE x) in
  let userNotes := of_user allNotes user in
  (ok_json (Object [("notes", Array (map note_json userNotes))]), x).

(** POST /notes, at the time [now] (what [Date.now()] returns). *)
Definition notes_post (now : Z) (b : value) (user : string) (x : db) : response * db :=
  match property b "content" with
  | Str content =>
      let allNotes := readData (NOTES_FILE x) in
      let entry := Note (pretty now) content in
      let list := of_user allNotes user ++ [entry] in
      (ok_json (Object [("note", note_json entry)]),
       Db (writeData (<[user := list]> allNotes)) (PASSWORDS_FILE x))
  | _ => (status_message 400 "Content is required and must be a string.", x)
  end.

(** PUT /notes/:id *)
Definition notes_put (id : string) (b : value) (user : string) (x : db) : response * db :=
  match property b "content" with
  | Str content =>
      let allNotes := readData (NOTES_FILE x) in
      let list := of_user allNotes user in
      match List.find (fun n => String.eqb (note_id n) id) list with
      | None => (status_message 404 "Note not found.", x)
      | Some n =>
          (ok_json (Object [("note", note_json (Note (note_id n) content))]),
           Db (writeData (<[user := set_content id content list]> allNotes))
              (PASSWORDS_FILE x))
      end
  | _ => (status_message 400 "Content is required and must be a string.", x)
  end.

(** DELETE /notes/:id *)
Definition notes_delete (id : string) (user : string) (x : db) : response * db :=
  let allNotes := readData (NOTES_FILE x) in
  let list := of_user allNotes user in
  let idx := findIndex (fun n => String.eqb (note_id n) id) list in
  if idx =? -1 then (status_message 404 "Note not found.", x)
  else
    (ok_json (message "Note deleted."),
     Db (writeData (<[user := splice1 idx list]> allNotes)) (PASSWORDS_FILE x)).

(** GET /passwords *)
Definition passwords_get (user : string) (x : db) : response * db :=
  let allPass := readData (PASSWORDS_FILE x) in
  let passwords := of_user allPass user in
  (ok_json (Object [("passwords", Array (map entry_json passwords))]), x).

(** POST /passwords, at the time [now]. *)
Definition passwords_post (now : Z) (b : value) (user : string) (x : db) : response * db :=
  let name := property b "name" in
  let link := property b "link" in
  let username := property b "username" in
  let password := property b "password" in
  if negb (truthy name) || negb (truthy username) || negb (truthy password) then
    (status_message 400 "Missing required fields.", x)
  else
    let allPass := readData (PASSWORDS_FILE x) in
    let entry := PasswordEntry (pretty now) name (if truthy link then link else Str "")
                               username password in
    let list := of_user allPass user ++ [entry] in
    (ok_json (Object [("password", entry_json entry)]),
     Db (NOTES_FILE x) (writeData (<[user := list]> allPass))).

(** DELETE /passwords/:id *)
Definition passwords_delete (id : string) (user : string) (x : db) : response * db :=
  let allPass := readData (PASSWORDS_FILE x) in
  let list := of_user allPass user in
  let idx := findIndex (fun e => String.eqb (entry_id e) id) list in
  if idx =? -1 then (status_message 404 "Password not found.", x)
  else
    (ok_json (message "Password deleted."),
     Db (NOTES_FILE x) (writeData (<[user := splice1 idx list]> allPass))).

(** The seven callbacks as one function of the route, [req.params.id],
    [req.body], [req.user.id] and the data files, at the time [now].  The
    application asks it for these seven routes only. *)
Definition callbacks (now : Z) (r : route) (id : string) (b : value) (user : string) (x : db)
  : response * db :=
  match r with
  | GET_notes => notes_get user x
  | POST_notes => notes_post now b user x
  | PUT_notes => notes_put id b user x
  | DELETE_notes => notes_delete id user x
  | GET_passwords => passwords_get user x
  | POST_passwords => passwords_post now b user x
  | DELETE_passwords => passwords_delete id user x
  | _ => (Response 404 ErrorPage, x)
  end.

(** The notes and the password entries of [user], as the next GET reads
    them. *)
Definition notes_of (user : string) (x : db) : list note :=
  of_user (readData (NOTES_FILE x)) user.

Definition entries_of (user : string) (x : db) : list password_entry :=
  of_user (readData (PASSWORDS_FILE x)) user.

End Records.

(** ** The page, logged out and logged in (Homepage.js)

    Each handler is taken at the state the page shows, that is after the
    render that followed the previous event. *)

Module Dashboard.

(** [handleImageClick(index)] on [clickedSequence] *)
Definition handleImageClick (index : Z) (clickedSequence : list Z) : list Z :=
  if (length clickedSequence <? 4)%nat
  then clickedSequence ++ [index]
  else clickedSequence.

(** [handleLogin]: nothing happens on an empty sequence; otherwise the body
    [{ imageSequence: clickedSequence.map(i => i + 1) }] is posted and the
    sequence is cleared once the response is in, whatever it is. *)
Definition login_body (clickedSequence : list Z) : value :=
  Object [("imageSequence", Array (map (fun i => Number (i + 1)) clickedSequence))].

Definition handleLogin (clickedSequence : list Z) : list Z * option value :=
  if (length clickedSequence =? 0)%nat
  then (clickedSequence, None)
  else ([], Some (login_body clickedSequence)).

(** The decimal digit a character stands for. *)
Definition digit (c : ascii) : option Z :=
  let n := N_of_ascii c in
  if ((48 <=? n) && (n <=? 57))%N then Some (Z.of_N n - 48) else None.

(** [parseInt(s, 10)] for an [s] that begins with a digit: the number its
    leading digits spell. *)
Fixpoint parse_digits (s : string) (acc : Z) : Z :=
  match s with
  | EmptyString => acc
  | String c rest =>
      match digit c with
      | Some d => parse_digits rest (10 * acc + d)
      | None => acc
      end
  end.

(** What the page reacts to while the login modal is up. *)
Inductive event : Type :=
| Click (cell : Z)            (* a click on the cell [i] of the grid *)
| Key (key : string)          (* keydown, with [event.key] *)
| ResetButton
| LoginButton.

(** One event: the next [clickedSequence], and the body posted to /login if
    any.  [handleKeyDown] tests the key three times, for a digit from 1 to
    9, for Enter and for Backspace. *)
Definition step (e : event) (clickedSequence : list Z) : list Z * option value :=
  match e with
  | Click i => (handleImageClick i clickedSequence, None)
  | Key key =>
      let clicked1 :=
        if String.leb "1" key && String.leb key "9"
        then handleImageClick (parse_digits key 0 - 1) clickedSequence
        else clickedSequence in
      let (clicked2, sent) :=
        if String.eqb key "Enter" then handleLogin clicked1 else (clicked1, None) in
      let clicked3 :=
        if String.eqb key "Backspace" then removelast clicked2 else clicked2 in
      (clicked3, sent)
  | ResetButton => ([], None)
  | LoginButton => handleLogin clickedSequence
  end.

(** The sequence after the events, and the bodies posted on the way, first
    to last. *)
Fixpoint play (events : list event) (clickedSequence : list Z) : list Z * list value :=
  match events with
  | [] => (clickedSequence, [])
  | e :: rest =>
      let (clicked, sent) := step e clickedSequence in
      let (final, bodies) := play rest clicked in
      (final, match sent with Some b => b :: bodies | None => bodies end)
  end.

(** [data.note] read back as a note. *)
Definition note_of_json (v : value) : option Records.note :=
  match property v "id", property v "content" with
  | Str id, Str content => Some (Records.Note id content)
  | _, _ => None
  end.

(** [response.ok] *)
Definition ok (r : response) : bool :=
  (200 <=? status r) && (status r <=? 299).

(** [addNote], once the response [r] of POST /notes is in. *)
Definition addNote (r : response) (notes : list Records.note) : list Records.note :=
  match sent r with
  | Json data =>
      if ok r
      then match note_of_json (property data "note") with
           | Some n => notes ++ [n]
           | None => notes
           end
      else notes
  | _ => notes
  end.

(** [deleteNote(id)], once the response [r] of DELETE /notes/:id is in: the
    list without the notes of that id, or the original list on an error. *)
Definition deleteNote (id : string) (r : response) (notes : list Records.note)
  : list Records.note :=
  let originalNotes := notes in
  let shown := List.filter (fun n => negb (String.eqb (Records.note_id n) id)) notes in
  if ok r then shown else originalNotes.

(** [notes.map(note => note.id === id ? { ...note, content } : note)] *)
Definition with_content (id content : string) (notes : list Records.note)
  : list Records.note :=
  map (fun n => if String.eqb (Records.note_id n) id
                then Records.Note (Records.note_id n) content else n) notes.

(** [handleNoteChange(id, content)], once the response [r] of PUT /notes/:id
    is in: every note of that id shows the new content, or the content the
    first of them had on an error. *)
Definition handleNoteChange (id content : string) (r : response)
    (notes : list Records.note) : list Records.note :=
  let originalContent :=
    match List.find (fun n => String.eqb (Records.note_id n) id) notes with
    | Some n => Records.note_content n
    | None => ""
    end in
  if ok r then with_content id content notes
  else with_content id originalContent notes.

(** An entry of the page's own password list (kept in [localStorage]); its
    id is the number [Date.now()] gave. *)
Record saved_password := SavedPassword {
  saved_name : string;
  saved_link : string;
  saved_username : string;
  saved_password_text : string;
  saved_id : Z
}.

(** The four inputs of the form. *)
Record form := Form {
  form_name : string;
  form_link : string;
  form_username : string;
  form_password : string
}.

Definition empty_form : form := Form "" "" "" "".

(** [addPassword], at the time [now]: the list and the form afterwards. *)
Definition addPassword (now : Z) (newPassword : form) (passwords : list saved_password)
  : list saved_password * form :=
  if negb (String.eqb (form_name newPassword) "")
     && negb (String.eqb (form_username newPassword) "")
     && negb (String.eqb (form_password newPassword) "")
  then (passwords ++ [SavedPassword (form_name newPassword) (form_link newPassword)
                                    (form_username newPassword) (form_password newPassword)
                                    now],
        empty_form)
  else (passwords, newPassword).

(** [deletePassword(id)] *)
Definition deletePassword (id : Z) (passwords : list saved_password) : list saved_password :=
  List.filter (fun p => negb (saved_id p =? id)) passwords.

(** The lock of the password section. *)
Record lock := Lock {
  isUnlocked : bool;
  error : value;
  passwordInput : string
}.

(** [handleUnlock], first half: the request to POST /admin/check-password,
    sent from the address [k] by a page whose [localStorage] holds
    [authToken]; none for an empty input. *)
Definition unlock_request (k : string) (authToken : option string) (l : lock)
  : option request :=
  if String.eqb (passwordInput l) "" then None
  else
    let header := match authToken with
                  | Some t => t
                  | None => ""
                  end in
    Some (Request k None (Some header) None
            (Object [("password", Str (passwordInput l))]) "" "" None).

(** [handleUnlock], second half: the lock once the response [r] is in. *)
Definition handleUnlock (r : response) (l : lock) : lock :=
  if ok r then Lock true (Str "") ""
  else
    match sent r with
    | Json data =>
        let shown := if truthy (property data "message")
                     then property data "message"
                     else Str "Incorrect password" in
        Lock (isUnlocked l) shown ""
    | _ => Lock (isUnlocked l) (Str "Error verifying password") ""
    end.

End Dashboard.

(** ** More of the sample deployment *)

(** The routes of the record stores, and the routes that only read. *)
Definition record_routes : list route :=
  [GET_notes; POST_notes; PUT_notes; DELETE_notes;
   GET_passwords; POST_passwords; DELETE_passwords].

Definition read_only_routes : list route :=
  [GET_test; GET_download; GET_files; GET_images].

(** An admin password check that knows the default password: it throws on
    what is no string. *)
Definition sample_bcrypt (password : value) : option bool :=
  match password with
  | Str p => Some (String.eqb p "admin")
  | _ => None
  end.

(** A request from 10.0.0.7 presenting [t] in the header, with the body [b]
    and the route parameter [id]. *)
Definition json_request (t : string) (id : string) (b : value) : request :=
  Request "10.0.0.7" None (Some t) None b "" id None.

(** A process in which one login has succeeded, over empty data files. *)
Definition logged_in_records : server Records.db :=
  snd (login default_env (login_request "10.0.0.7" [2; 6; 4; 8])
         (initial_server ∅ (Records.Db Records.Absent Records.Absent))).

(** ** Invariants of a running process *)

(** Every counter is between 0 and its ceiling (or 0, for a ceiling below
    0). *)
Definition counters_bounded {store : Type} (env : environment) (st : server store) : Prop :=
  forall k : string,
    0 <= count (imageLoginAttempts st) k <= Z.max 0 (MAX_IMAGE_LOGIN_ATTEMPTS env)
    /\ 0 <= count (adminPasswordAttempts st) k <= Z.max 0 (MAX_ADMIN_PASSWORD_ATTEMPTS env).

(** Only the one token is ever registered, and only its admin counter is
    ever written. *)
Definition single_identity {store : Type} (st : server store) : Prop :=
  (forall t, t ∈ authenticatedUsers st -> t = "user_2_6_4_8")
  /\ (forall k, k <> "user_2_6_4_8" -> count (adminPasswordAttempts st) k = 0).

(** * Properties *)

(** ** Sequence verification *)

Lemma strict_equals_Number (v : value) (n : Z) :
  strict_equals v (Number n) = true <-> v = Number n.
Proof.
  destruct v; simpl; try (split; discriminate).
  rewrite Z.eqb_eq. split; congruence.
Qed.

Lemma every_from_shift (x : value) (expected items : list value) (k : nat) :
  every_from (fun v i => strict_equals v (JS.index (x :: expected) i)) (S k) items
  = every_from (fun v i => strict_equals v (JS.index expected i)) k items.
Proof.
  revert k. induction items as [|v items IH]; intros k; simpl; [reflexivity|].
  now rewrite IH.
Qed.

Lemma sequence_matches_spec (e : list Z) (items : list value) :
  sequence_matches (map Number e) items = true <-> items = map Number e.
Proof.
  unfold sequence_matches, every. revert e.
  induction items as [|v items IH]; intros [|x e]; simpl;
    try (split; [discriminate | discriminate]); [tauto|].
  rewrite every_from_shift. change (JS.index (Number x :: map Number e) 0) with (Number x).
  specialize (IH e). rewrite andb_true_iff in IH.
  rewrite !andb_true_iff, strict_equals_Number. split.
  - intros (Hlen & -> & Hall). f_equal. apply IH. auto.
  - intros [= -> ->]. destruct IH as [_ IH]. destruct (IH eq_refl). auto.
Qed.

Lemma matches_secret_or_not (items : list value) :
  items = CORRECT_IMAGE_SEQUENCE \/ items <> CORRECT_IMAGE_SEQUENCE.
Proof.
  destruct (sequence_matches CORRECT_IMAGE_SEQUENCE items) eqn:E.
  - left. now apply (sequence_matches_spec [2; 6; 4; 8]).
  - right. intros H. apply (sequence_matches_spec [2; 6; 4; 8]) in H.
    unfold CORRECT_IMAGE_SEQUENCE in E. simpl map in H. congruence.
Qed.

Lemma pointwise_equal (items expected : list value) :
  items = expected <->
  length items = length expected /\ forall i : nat, items !! i = expected !! i.
Proof.
  split.
  - intros <-. now split.
  - intros [_ H]. now apply list_eq.
Qed.

(** ** Attempt counters *)

Lemma count_initialise (key k : string) (m : gmap string Z) :
  count (initialise key m) k = count m k.
Proof.
  unfold count, initialise.
  destruct (m !! key) as [n|] eqn:E.
  - destruct (Z.eqb_spec n 0) as [->|]; [|reflexivity].
    now rewrite insert_id.
  - destruct (decide (key = k)) as [<-|Hne].
    + now rewrite lookup_insert_eq, E.
    + now rewrite lookup_insert_ne.
Qed.

Lemma count_insert (key k : string) (n : Z) (m : gmap string Z) :
  count (<[key := n]> m) k = if decide (key = k) then n else count m k.
Proof.
  unfold count. destruct (decide (key = k)) as [<-|Hne].
  - now rewrite lookup_insert_eq.
  - now rewrite lookup_insert_ne.
Qed.

Lemma count_increment (key k : string) (m : gmap string Z) :
  count (increment key m) k = if decide (key = k) then count m k + 1 else count m k.
Proof.
  unfold increment. rewrite count_insert. now destruct (decide (key = k)) as [<-|].
Qed.

(** ** The four outcomes of POST /login *)

(** Enters [login] and splits on the throttle test. *)
Ltac login_guard :=
  unfold login; cbn [imageLoginAttempts set_imageLoginAttempts];
  rewrite count_initialise;
  match goal with
  | |- context [?n >=? ?m] => destruct (Z.geb_spec n m)
  end.

Section Login.

Variable env : environment.
Variable store : Type.
Implicit Types (st : server store) (req : request).

Lemma login_throttled st req :
  MAX_IMAGE_LOGIN_ATTEMPTS env <= count (imageLoginAttempts st) (ip req) ->
  login env req st =
    (status_message 429 "Too many login attempts. Please try again later.",
     set_imageLoginAttempts (initialise (ip req) (imageLoginAttempts st)) st).
Proof.
  intros H. login_guard; [reflexivity | lia].
Qed.

Lemma login_bad_request st req :
  count (imageLoginAttempts st) (ip req) < MAX_IMAGE_LOGIN_ATTEMPTS env ->
  isArray (property (body req) "imageSequence") = false ->
  login env req st =
    (status_message 400 "Image sequence is required and must be an array.",
     set_imageLoginAttempts (initialise (ip req) (imageLoginAttempts st)) st).
Proof.
  intros H Hv. login_guard; [lia|].
  rewrite Hv. cbn [negb]. now rewrite orb_true_r.
Qed.

Lemma login_accepted st req (items : list value) :
  count (imageLoginAttempts st) (ip req) < MAX_IMAGE_LOGIN_ATTEMPTS env ->
  property (body req) "imageSequence" = Array items ->
  sequence_matches CORRECT_IMAGE_SEQUENCE items = true ->
  login env req st =
    (ok_json (Object [("message", Str "Login successful!"); ("token", Str (token_of items))]),
     set_authenticatedUsers ({[token_of items]} ∪ authenticatedUsers st)
       (set_imageLoginAttempts
          (<[ip req := 0]> (initialise (ip req) (imageLoginAttempts st))) st)).
Proof.
  intros H Hv Hm. login_guard; [lia|].
  rewrite Hv. cbn [truthy isArray negb orb array_items]. rewrite Hm. reflexivity.
Qed.

Lemma login_refused st req (items : list value) :
  count (imageLoginAttempts st) (ip req) < MAX_IMAGE_LOGIN_ATTEMPTS env ->
  property (body req) "imageSequence" = Array items ->
  sequence_matches CORRECT_IMAGE_SEQUENCE items = false ->
  login env req st =
    (status_message 401 "Incorrect image sequence.",
     set_imageLoginAttempts
       (increment (ip req) (initialise (ip req) (imageLoginAttempts st))) st).
Proof.
  intros H Hv Hm. login_guard; [lia|].
  rewrite Hv. cbn [truthy isArray negb orb array_items]. rewrite Hm. reflexivity.
Qed.

End Login.

(** ** C1: which sequences log in *)

(** C1, as the code has it.  For an origin whose attempt counter is strictly
    below the ceiling and a submitted array [items] (of numbers, or of
    anything else): the login returns a token if and only if [items] has the
    length of the secret sequence and equals it position by position; every
    other array, and so every permutation, proper prefix or superset of the
    secret that differs from it, is answered 401 "Incorrect image
    sequence.". *)
Theorem login_accepts_exactly_the_secret
    (env : environment) (store : Type) (st : server store) (req : request)
    (items : list value) :
  count (imageLoginAttempts st) (ip req) < MAX_IMAGE_LOGIN_ATTEMPTS env ->
  property (body req) "imageSequence" = Array items ->
  let res := fst (login env req st) in
  (is_Some (issued_token res) <->
     length items = length CORRECT_IMAGE_SEQUENCE /\
     forall i : nat, items !! i = CORRECT_IMAGE_SEQUENCE !! i)
  /\ (items = CORRECT_IMAGE_SEQUENCE ->
      res = ok_json (Object [("message", Str "Login successful!");
                             ("token", Str "user_2_6_4_8")]))
  /\ (items <> CORRECT_IMAGE_SEQUENCE ->
      res = status_message 401 "Incorrect image sequence.")
  /\ (items ≡ₚ CORRECT_IMAGE_SEQUENCE -> items <> CORRECT_IMAGE_SEQUENCE ->
      res = status_message 401 "Incorrect image sequence.")
  /\ (forall rest, rest <> [] -> items ++ rest = CORRECT_IMAGE_SEQUENCE ->
      res = status_message 401 "Incorrect image sequence.")
  /\ (CORRECT_IMAGE_SEQUENCE ⊆ items -> items <> CORRECT_IMAGE_SEQUENCE ->
      res = status_message 401 "Incorrect image sequence.").
Proof.
  intros Hc Hv res.
  assert (Hyes : items = CORRECT_IMAGE_SEQUENCE ->
                 res = ok_json (Object [("message", Str "Login successful!");
                                        ("token", Str "user_2_6_4_8")])).
  { intros E. subst res. rewrite (login_accepted env store st req _ Hc Hv).
    - rewrite E. reflexivity.
    - now apply (sequence_matches_spec [2; 6; 4; 8]). }
  assert (Hno : items <> CORRECT_IMAGE_SEQUENCE ->
                res = status_message 401 "Incorrect image sequence.").
  { intros N. subst res. rewrite (login_refused env store st req _ Hc Hv); [reflexivity|].
    apply not_true_is_false. intros M. apply N.
    now apply (sequence_matches_spec [2; 6; 4; 8]). }
  split; [split|split; [exact Hyes|split; [exact Hno|split; [auto|split; [|auto]]]]].
  - intros [t Ht]. apply pointwise_equal.
    destruct (matches_secret_or_not items) as [E|N]; [exact E|].
    rewrite (Hno N) in Ht. discriminate Ht.
  - intros H. apply pointwise_equal in H. rewrite (Hyes H). now eexists.
  - intros rest Hrest E. apply Hno. intros E'. rewrite E' in E.
    apply Hrest. apply (app_inv_head CORRECT_IMAGE_SEQUENCE). now rewrite app_nil_r.
Qed.

Lemma login_accepts_exactly_the_secret_witness :
  count (imageLoginAttempts fresh) "10.0.0.7" < MAX_IMAGE_LOGIN_ATTEMPTS default_env
  /\ fst (login default_env (login_request "10.0.0.7" [2; 6; 4; 8]) fresh)
     = ok_json (Object [("message", Str "Login successful!"); ("token", Str "user_2_6_4_8")])
  /\ fst (login default_env (login_request "10.0.0.7" [6; 2; 4; 8]) fresh)
     = status_message 401 "Incorrect image sequence.".
Proof.
  split; [reflexivity|]. split.
  - exact (proj1 (proj2 (login_accepts_exactly_the_secret default_env unit fresh
                           (login_request "10.0.0.7" [2; 6; 4; 8])
                           (map Number [2; 6; 4; 8]) eq_refl eq_refl)) eq_refl).
  - refine (proj1 (proj2 (proj2 (login_accepts_exactly_the_secret default_env unit fresh
                           (login_request "10.0.0.7" [6; 2; 4; 8])
                           (map Number [6; 2; 4; 8]) eq_refl eq_refl))) _).
    intros H. discriminate H.
Defined.

(** C1 as stated fails once the origin is throttled: after five failed
    attempts from one address the secret itself, submitted from that address,
    gets no token, and a permutation of it is answered 429 rather than 401. *)
Lemma throttled_login_refuses_the_secret :
  let st := run default_env no_records no_password
              (repeat (POST_login, login_request "10.0.0.7" [1; 2; 3; 4]) 5) fresh in
  map Number [2; 6; 4; 8] = CORRECT_IMAGE_SEQUENCE
  /\ issued_token (fst (login default_env (login_request "10.0.0.7" [2; 6; 4; 8]) st)) = None
  /\ status (fst (login default_env (login_request "10.0.0.7" [2; 6; 4; 8]) st)) = 429
  /\ status (fst (login default_env (login_request "10.0.0.7" [6; 2; 4; 8]) st)) = 429.
Proof. vm_compute. repeat split. Qed.

(** ** What a request changes *)

Section Frame.

Variable env : environment.
Variable store : Type.
Variable record_store : route -> string -> value -> string -> store -> response * store.
Variable bcrypt_compare : value -> option bool.
Implicit Types (st : server store) (req : request).

(** POST /login ends in one of four ways. *)
Lemma login_cases st req :
  let out := login env req st in
  let n := count (imageLoginAttempts st) (ip req) in
  let m := imageLoginAttempts (snd out) in
  (MAX_IMAGE_LOGIN_ATTEMPTS env <= n /\ status (fst out) = 429
   /\ issued_token (fst out) = None
   /\ (forall k, count m k = count (imageLoginAttempts st) k)
   /\ authenticatedUsers (snd out) = authenticatedUsers st)
  \/ (n < MAX_IMAGE_LOGIN_ATTEMPTS env /\ status (fst out) = 400
      /\ isArray (property (body req) "imageSequence") = false
      /\ issued_token (fst out) = None
      /\ (forall k, count m k = count (imageLoginAttempts st) k)
      /\ authenticatedUsers (snd out) = authenticatedUsers st)
  \/ (n < MAX_IMAGE_LOGIN_ATTEMPTS env /\ status (fst out) = 401
      /\ isArray (property (body req) "imageSequence") = true
      /\ sequence_matches CORRECT_IMAGE_SEQUENCE
           (array_items (property (body req) "imageSequence")) = false
      /\ issued_token (fst out) = None
      /\ count m (ip req) = n + 1
      /\ (forall k, k <> ip req -> count m k = count (imageLoginAttempts st) k)
      /\ authenticatedUsers (snd out) = authenticatedUsers st)
  \/ (n < MAX_IMAGE_LOGIN_ATTEMPTS env /\ status (fst out) = 200
      /\ isArray (property (body req) "imageSequence") = true
      /\ array_items (property (body req) "imageSequence") = CORRECT_IMAGE_SEQUENCE
      /\ issued_token (fst out) = Some "user_2_6_4_8"
      /\ count m (ip req) = 0
      /\ (forall k, k <> ip req -> count m k = count (imageLoginAttempts st) k)
      /\ authenticatedUsers (snd out) = {["user_2_6_4_8"]} ∪ authenticatedUsers st).
Proof.
  intros out n m. subst out n m.
  destruct (Z.le_gt_cases (MAX_IMAGE_LOGIN_ATTEMPTS env) (count (imageLoginAttempts st) (ip req)))
    as [Hge|Hlt].
  { left. rewrite (login_throttled env store st req Hge). cbn.
    repeat split; auto. intros k. apply count_initialise. }
  right.
  destruct (property (body req) "imageSequence") as [| | | | |items|] eqn:Hv;
    try (left; rewrite (login_bad_request env store st req Hlt) by (now rewrite Hv); cbn;
         repeat split; auto; intros k; apply count_initialise).
  right.
  destruct (sequence_matches CORRECT_IMAGE_SEQUENCE items) eqn:Hm.
  - right. rewrite (login_accepted env store st req items Hlt Hv Hm). cbn.
    apply (sequence_matches_spec [2; 6; 4; 8]) in Hm. subst items.
    repeat split; auto.
    + rewrite count_insert. now destruct (decide (ip req = ip req)).
    + intros k Hk. rewrite count_insert. destruct (decide (ip req = k)); [congruence|].
      apply count_initialise.
  - left. rewrite (login_refused env store st req items Hlt Hv Hm). cbn.
    repeat split; auto.
    + rewrite count_increment. destruct (decide (ip req = ip req)); [|congruence].
      now rewrite count_initialise.
    + intros k Hk. rewrite count_increment. destruct (decide (ip req = k)); [congruence|].
      apply count_initialise.
Qed.

(** Every other route leaves the login counters and the session store as they
    are. *)
Lemma handle_frame (r : route) st req :
  r <> POST_login ->
  imageLoginAttempts (snd (handle env record_store bcrypt_compare r req st))
    = imageLoginAttempts st
  /\ authenticatedUsers (snd (handle env record_store bcrypt_compare r req st))
    = authenticatedUsers st.
Proof.
  intros Hr.
  destruct r; try congruence; cbn [handle]; unfold behind_gateway;
    try (destruct (authenticateToken req st) as [res|id]; [now split|]).
  - now split.
  - unfold upload. destruct (file_part req) as [part|]; [|now split].
    destruct (String.eqb (originalname part) ""); [now split|].
    destruct (resolve (uploads st) (originalname part)) as [[?|]|]; now split.
  - unfold download. destruct (resolve (uploads st) (params_filename req)) as [[?|]|]; now split.
  - now split.
  - unfold records. destruct (record_store _ _ _ _ _); now split.
  - unfold records. destruct (record_store _ _ _ _ _); now split.
  - unfold records. destruct (record_store _ _ _ _ _); now split.
  - unfold records. destruct (record_store _ _ _ _ _); now split.
  - unfold records. destruct (record_store _ _ _ _ _); now split.
  - unfold images. destruct (resolve (uploads st) (params_filename req)) as [[?|]|]; now split.
  - unfold admin_check_password. cbn [adminPasswordAttempts set_adminPasswordAttempts].
    destruct (_ >=? _); [now split|].
    destruct (negb _); [now split|].
    destruct (bcrypt_compare _) as [[|]|]; now split.
  - unfold records. destruct (record_store _ _ _ _ _); now split.
  - unfold records. destruct (record_store _ _ _ _ _); now split.
Qed.

End Frame.

(** ** C2: the throttle *)

(** C2.  Once the counter of an origin has reached the ceiling, a login from
    that origin is answered 429 whatever it submits (the response is the same
    for every body, the secret included), and neither the counters nor the
    session store move; below the ceiling, a login whose sequence verifies
    succeeds and leaves the origin's counter at zero. *)
Theorem throttle_gate
    (env : environment) (store : Type) (st : server store) (req : request) :
  (MAX_IMAGE_LOGIN_ATTEMPTS env <= count (imageLoginAttempts st) (ip req) ->
   fst (login env req st)
     = status_message 429 "Too many login attempts. Please try again later."
   /\ (forall req', ip req' = ip req -> fst (login env req' st) = fst (login env req st))
   /\ authenticatedUsers (snd (login env req st)) = authenticatedUsers st
   /\ (forall k, count (imageLoginAttempts (snd (login env req st))) k
                 = count (imageLoginAttempts st) k))
  /\ (count (imageLoginAttempts st) (ip req) < MAX_IMAGE_LOGIN_ATTEMPTS env ->
      forall items : list value,
        property (body req) "imageSequence" = Array items ->
        sequence_matches CORRECT_IMAGE_SEQUENCE items = true ->
        status (fst (login env req st)) = 200
        /\ is_Some (issued_token (fst (login env req st)))
        /\ count (imageLoginAttempts (snd (login env req st))) (ip req) = 0).
Proof.
  split.
  - intros H. rewrite (login_throttled env store st req H). cbn.
    repeat split; auto.
    + intros req' E. rewrite login_throttled by (now rewrite E). reflexivity.
    + intros k. apply count_initialise.
  - intros H items Hv Hm. rewrite (login_accepted env store st req items H Hv Hm). cbn.
    repeat split; [now eexists|].
    rewrite count_insert. now destruct (decide (ip req = ip req)).
Qed.

Lemma throttle_gate_witness :
  let st := run default_env no_records no_password
              (repeat (POST_login, login_request "10.0.0.7" [1; 2; 3; 4]) 5) fresh in
  let st3 := run default_env no_records no_password
              (repeat (POST_login, login_request "10.0.0.7" [1; 2; 3; 4]) 3) fresh in
  fst (login default_env (login_request "10.0.0.7" [2; 6; 4; 8]) st)
    = status_message 429 "Too many login attempts. Please try again later."
  /\ count (imageLoginAttempts st3) "10.0.0.7" = 3
  /\ count (imageLoginAttempts
             (snd (login default_env (login_request "10.0.0.7" [2; 6; 4; 8]) st3)))
          "10.0.0.7" = 0.
Proof.
  intros st st3. split; [|split; [reflexivity|]].
  - refine (proj1 (proj1 (throttle_gate default_env unit st
                            (login_request "10.0.0.7" [2; 6; 4; 8])) _)).
    vm_compute. discriminate.
  - refine (proj2 (proj2 (proj2 (throttle_gate default_env unit st3
                                   (login_request "10.0.0.7" [2; 6; 4; 8])) _
                                _ eq_refl eq_refl))).
    vm_compute. reflexivity.
Defined.

(** Failed attempts from one origin add up as long as the ceiling is not
    passed, so that after as many failures as the ceiling the origin is
    throttled. *)
Lemma failed_logins_count (env : environment) (store : Type) (st : server store)
    (k : string) (reqs : list request) :
  Forall (fun req => ip req = k /\ wrong_sequence req) reqs ->
  count (imageLoginAttempts st) k + Z.of_nat (length reqs) <= MAX_IMAGE_LOGIN_ATTEMPTS env ->
  count (imageLoginAttempts (logins env reqs st)) k
  = count (imageLoginAttempts st) k + Z.of_nat (length reqs).
Proof.
  intros H. revert st. induction H as [|req reqs [Hk (items & Hv & Hm)] _ IH]; intros st Hle.
  - cbn. lia.
  - cbn [logins length] in *. rewrite Nat2Z.inj_succ in Hle.
    assert (Hlt : count (imageLoginAttempts st) (ip req) < MAX_IMAGE_LOGIN_ATTEMPTS env)
      by (rewrite Hk; lia).
    assert (E : count (imageLoginAttempts (snd (login env req st))) k
                = count (imageLoginAttempts st) k + 1).
    { rewrite (login_refused env store st req items Hlt Hv Hm). cbn.
      rewrite count_increment, count_initialise, Hk.
      now destruct (decide (k = k)). }
    rewrite IH; rewrite E; lia.
Qed.

Lemma throttled_after_ceiling_failures (env : environment) (store : Type)
    (st : server store) (k : string) (reqs : list request) (req : request) :
  count (imageLoginAttempts st) k = 0 ->
  Z.of_nat (length reqs) = MAX_IMAGE_LOGIN_ATTEMPTS env ->
  Forall (fun req => ip req = k /\ wrong_sequence req) reqs ->
  ip req = k ->
  fst (login env req (logins env reqs st))
  = status_message 429 "Too many login attempts. Please try again later.".
Proof.
  intros H0 Hn Hall Hk.
  rewrite login_throttled; [reflexivity|].
  rewrite Hk, (failed_logins_count env store st k reqs Hall); lia.
Qed.

(** ** C9: malformed logins and the counter *)

(** C9.  Below the ceiling, a login whose body has no [imageSequence] or
    one that is not an array is answered 400 and every counter reads as
    before; and whatever the route and the request, a login counter either
    reads as before, or is one more after a 401 on POST /login from its key
    (a mismatch), or is zero after a 200 on POST /login from its key (a
    match). *)
Theorem malformed_login_keeps_the_counter
    (env : environment) (store : Type)
    (record_store : route -> string -> value -> string -> store -> response * store)
    (bcrypt_compare : value -> option bool)
    (st : server store) (req : request) :
  (count (imageLoginAttempts st) (ip req) < MAX_IMAGE_LOGIN_ATTEMPTS env ->
   property (body req) "imageSequence" = Undefined
   \/ isArray (property (body req) "imageSequence") = false ->
   fst (login env req st)
     = status_message 400 "Image sequence is required and must be an array."
   /\ (forall k, count (imageLoginAttempts (snd (login env req st))) k
                 = count (imageLoginAttempts st) k))
  /\ (forall (r : route) (k : string),
        let out := handle env record_store bcrypt_compare r req st in
        let before := count (imageLoginAttempts st) k in
        let after := count (imageLoginAttempts (snd out)) k in
        after = before
        \/ (r = POST_login /\ k = ip req /\ status (fst out) = 401
            /\ sequence_matches CORRECT_IMAGE_SEQUENCE
                 (array_items (property (body req) "imageSequence")) = false
            /\ after = before + 1)
        \/ (r = POST_login /\ k = ip req /\ status (fst out) = 200
            /\ sequence_matches CORRECT_IMAGE_SEQUENCE
                 (array_items (property (body req) "imageSequence")) = true
            /\ after = 0)).
Proof.
  split.
  - intros H Hv.
    assert (Hna : isArray (property (body req) "imageSequence") = false).
    { destruct Hv as [-> | Hv]; [reflexivity | exact Hv]. }
    rewrite (login_bad_request env store st req H Hna). cbn.
    split; [reflexivity|]. intros k. apply count_initialise.
  - intros r k out before after. subst out before after.
    destruct (decide (r = POST_login)) as [->|Hr].
    + cbn [handle].
      destruct (login_cases env store st req)
        as [(_ & _ & _ & Hk & _)
           |[(_ & _ & _ & _ & Hk & _)
           |[(_ & Hs & _ & Hm & _ & Hk & Hother & _)
           |(_ & Hs & _ & Hm & _ & Hk & Hother & _)]]].
      * left. apply Hk.
      * left. apply Hk.
      * destruct (decide (k = ip req)) as [->|Hne]; [|left; now apply Hother].
        right. left. repeat split; auto.
      * destruct (decide (k = ip req)) as [->|Hne]; [|left; now apply Hother].
        right. right. repeat split; auto.
        rewrite Hm. now apply (sequence_matches_spec [2; 6; 4; 8]).
    + left. now rewrite (proj1 (handle_frame env store record_store bcrypt_compare r st req Hr)).
Qed.

Lemma malformed_login_keeps_the_counter_witness :
  let st := run default_env no_records no_password
              (repeat (POST_login, login_request "10.0.0.7" [1; 2; 3; 4]) 3) fresh in
  status (fst (login default_env (bare_request "10.0.0.7") st)) = 400
  /\ count (imageLoginAttempts (snd (login default_env (bare_request "10.0.0.7") st)))
           "10.0.0.7" = 3.
Proof.
  intros st.
  destruct (proj1 (malformed_login_keeps_the_counter default_env unit no_records no_password
                     st (bare_request "10.0.0.7")) eq_refl (or_introl eq_refl)) as [E K].
  split.
  - rewrite E. reflexivity.
  - rewrite K. reflexivity.
Defined.

(** ** C6: the token is a function of the accepted sequence *)

Lemma login_token (env : environment) (store : Type) (st : server store) (req : request)
    (t : string) :
  issued_token (fst (login env req st)) = Some t ->
  array_items (property (body req) "imageSequence") = CORRECT_IMAGE_SEQUENCE
  /\ t = "user_2_6_4_8".
Proof.
  intros H.
  destruct (login_cases env store st req)
    as [(_ & _ & N & _)
       |[(_ & _ & _ & N & _)
       |[(_ & _ & _ & _ & N & _)
       |(_ & _ & _ & E & T & _)]]];
    try (rewrite N in H; discriminate H).
  rewrite T in H. split; [exact E | congruence].
Qed.

(** C6.  Two successful logins, whatever the configuration, the state of the
    process and the origin of each, return the same token: each submitted the
    secret sequence, and the token is [token_of] of what was submitted. *)
Theorem token_is_deterministic
    (env env' : environment) (store store' : Type)
    (st : server store) (st' : server store') (req req' : request) (t t' : string) :
  issued_token (fst (login env req st)) = Some t ->
  issued_token (fst (login env' req' st')) = Some t' ->
  t = t'
  /\ array_items (property (body req) "imageSequence")
     = array_items (property (body req') "imageSequence")
  /\ t = token_of (array_items (property (body req) "imageSequence")).
Proof.
  intros H H'.
  destruct (login_token env store st req t H) as [E ->].
  destruct (login_token env' store' st' req' t' H') as [E' ->].
  rewrite E, E'. repeat split.
Qed.

Lemma token_is_deterministic_witness :
  let st' := run default_env no_records no_password
               [(POST_login, login_request "10.0.0.7" [1; 2; 3; 4]);
                (POST_login, login_request "10.0.0.8" [2; 6; 4; 8])] fresh in
  issued_token (fst (login default_env (login_request "10.0.0.7" [2; 6; 4; 8]) fresh))
    = Some "user_2_6_4_8"
  /\ issued_token (fst (login (Environment (Some 3) None)
                          (login_request "192.168.1.20" [2; 6; 4; 8]) st'))
    = Some "user_2_6_4_8"
  /\ "user_2_6_4_8" = "user_2_6_4_8".
Proof.
  intros st'. split; [reflexivity|]. split; [reflexivity|].
  exact (proj1 (token_is_deterministic default_env (Environment (Some 3) None) unit unit
                  fresh st'
                  (login_request "10.0.0.7" [2; 6; 4; 8])
                  (login_request "192.168.1.20" [2; 6; 4; 8])
                  "user_2_6_4_8" "user_2_6_4_8" eq_refl eq_refl)).
Defined.

(** ** C5: the scenario with ceiling 5 *)

Lemma login_ceiling (env env' : environment) (store : Type) (st : server store)
    (req : request) :
  MAX_IMAGE_LOGIN_ATTEMPTS env = MAX_IMAGE_LOGIN_ATTEMPTS env' ->
  login env req st = login env' req st.
Proof. intros E. unfold login. now rewrite E. Qed.

(** C5 as stated fails at the fifth call: with four failures recorded the
    counter reads 4, which is below the ceiling 5, so the fifth call is still
    verified, and the secret sequence logs in. *)
Lemma fifth_login_is_still_verified :
  MAX_IMAGE_LOGIN_ATTEMPTS default_env = 5
  /\ let st4 := run default_env no_records no_password
                 (repeat (POST_login, login_request "10.0.0.7" [1; 2; 3; 4]) 4) fresh in
     count (imageLoginAttempts st4) "10.0.0.7" = 4
     /\ fst (login default_env (login_request "10.0.0.7" [2; 6; 4; 8]) st4)
        = ok_json (Object [("message", Str "Login successful!");
                           ("token", Str "user_2_6_4_8")])
     /\ status (fst (login default_env (login_request "10.0.0.7" [1; 2; 3; 4]) st4)) = 401.
Proof. vm_compute. repeat split. Qed.

(** C5, as the code has it.  With ceiling 5 and the secret [2,6,4,8], from no
    recorded attempt: four calls with [1,2,3,4] are each answered 401 and
    bring the counter to 4; the fifth call is still verified (401 for
    [1,2,3,4], bringing the counter to 5, and 200 for the secret); once five
    failures are recorded every call from the origin is answered 429 whatever
    it submits; after a restart a call with [2,6,4,8] is answered 200 with a
    token, and a repeat call returns the same token. *)
Theorem ceiling_five_scenario (env : environment) :
  MAX_IMAGE_LOGIN_ATTEMPTS env = 5 ->
  let wrong := login_request "10.0.0.7" [1; 2; 3; 4] in
  let right := login_request "10.0.0.7" [2; 6; 4; 8] in
  let st1 := snd (login env wrong fresh) in
  let st2 := snd (login env wrong st1) in
  let st3 := snd (login env wrong st2) in
  let st4 := snd (login env wrong st3) in
  let st5 := snd (login env wrong st4) in
  CORRECT_IMAGE_SEQUENCE = map Number [2; 6; 4; 8]
  /\ count (imageLoginAttempts fresh) "10.0.0.7" = 0
  /\ status (fst (login env wrong fresh)) = 401
  /\ status (fst (login env wrong st1)) = 401
  /\ status (fst (login env wrong st2)) = 401
  /\ status (fst (login env wrong st3)) = 401
  /\ count (imageLoginAttempts st4) "10.0.0.7" = 4
  /\ status (fst (login env wrong st4)) = 401
  /\ status (fst (login env right st4)) = 200
  /\ count (imageLoginAttempts st5) "10.0.0.7" = 5
  /\ (forall req, ip req = "10.0.0.7" ->
        fst (login env req st5)
        = status_message 429 "Too many login attempts. Please try again later.")
  /\ status (fst (login env right (restart st5))) = 200
  /\ issued_token (fst (login env right (restart st5))) = Some "user_2_6_4_8"
  /\ issued_token (fst (login env right (snd (login env right (restart st5)))))
     = Some "user_2_6_4_8".
Proof.
  intros H wrong right st1 st2 st3 st4 st5.
  assert (E : forall req (st : server unit), login env req st = login default_env req st).
  { intros req st. now apply login_ceiling. }
  subst st5 st4 st3 st2 st1. rewrite !E.
  repeat match goal with |- _ /\ _ => split end;
    lazymatch goal with
    | |- forall _, _ => idtac
    | |- _ => vm_compute; reflexivity
    end.
  intros req Hip. rewrite E, login_throttled; [reflexivity|].
  rewrite Hip. vm_compute. discriminate.
Qed.

Lemma ceiling_five_scenario_witness :
  MAX_IMAGE_LOGIN_ATTEMPTS (Environment (Some 5) None) = 5
  /\ status (fst (login (Environment (Some 5) None)
                    (login_request "10.0.0.7" [1; 2; 3; 4]) fresh)) = 401.
Proof.
  split; [reflexivity|].
  exact (proj1 (proj2 (proj2 (ceiling_five_scenario (Environment (Some 5) None) eq_refl)))).
Defined.

(** ** The gateway and the session store *)

Section Gateway.

Variable env : environment.
Variable store : Type.
Variable record_store : route -> string -> value -> string -> store -> response * store.
Variable bcrypt_compare : value -> option bool.
Implicit Types (st : server store) (req : request) (t : string).

Local Abbreviation serve := (handle env record_store bcrypt_compare).
Local Abbreviation serve_all := (run env record_store bcrypt_compare).
Local Abbreviation returned := (issued env record_store bcrypt_compare).

Lemma authenticate_bearer st req t :
  bearer_token req = Some (QString t) ->
  authenticateToken req st =
    if String.eqb t "" then Rejected (status_message 401 "Authentication token required")
    else if bool_decide (t ∈ authenticatedUsers st) then Authenticated t
    else Rejected (status_message 403 "Invalid or expired token").
Proof.
  intros H. unfold authenticateToken. rewrite H. cbn [no_token has_token].
  destruct (String.eqb t ""); [reflexivity|].
  now destruct (bool_decide (t ∈ authenticatedUsers st)).
Qed.

Lemma authenticate_same_bearer st req req' :
  bearer_token req' = bearer_token req ->
  authenticateToken req' st = authenticateToken req st.
Proof. intros H. unfold authenticateToken. now rewrite H. Qed.

Lemma authenticate_same_users st st' req :
  authenticatedUsers st' = authenticatedUsers st ->
  authenticateToken req st' = authenticateToken req st.
Proof.
  intros H. unfold authenticateToken, has_token.
  destruct (no_token (bearer_token req)); [reflexivity|].
  destruct (bearer_token req) as [[t| |]|]; try reflexivity. now rewrite H.
Qed.

Lemma authenticate_carriers st req t :
  authenticateToken (in_header t req) st = authenticateToken (in_query t req) st.
Proof.
  unfold authenticateToken, bearer_token, in_header, in_query.
  cbn [authorization query_token].
  destruct (String.eqb t "") eqn:E; cbn [no_token]; rewrite ?E; reflexivity.
Qed.

Lemma in_protected_routes (r : route) :
  r ∈ protected_routes <-> r <> GET_test /\ r <> POST_login.
Proof.
  unfold protected_routes. rewrite !elem_of_cons, elem_of_nil.
  destruct r; split; intros H; try (split; discriminate); try tauto;
    try (destruct H as [H1 H2]; congruence);
    repeat (destruct H as [H|H]; [discriminate H|]); try contradiction.
Qed.

(** On a protected route nothing happens before the gateway has let the
    request through. *)
Lemma handle_rejected (r : route) st req (res : response) :
  r ∈ protected_routes ->
  authenticateToken req st = Rejected res ->
  serve r req st = (res, st).
Proof.
  intros Hr Hg. apply in_protected_routes in Hr as [H1 H2].
  destruct r; try congruence; cbn [handle]; unfold behind_gateway; now rewrite Hg.
Qed.

Lemma users_grow (r : route) st req :
  authenticatedUsers st ⊆ authenticatedUsers (snd (serve r req st)).
Proof.
  destruct (decide (r = POST_login)) as [->|Hr].
  - cbn [handle].
    destruct (login_cases env store st req)
      as [(_ & _ & _ & _ & E)
         |[(_ & _ & _ & _ & _ & E)
         |[(_ & _ & _ & _ & _ & _ & _ & E)
         |(_ & _ & _ & _ & _ & _ & _ & E)]]];
      rewrite E; set_solver.
  - now rewrite (proj2 (handle_frame env store record_store bcrypt_compare r st req Hr)).
Qed.

Lemma run_users_grow (trace : list (route * request)) st :
  authenticatedUsers st ⊆ authenticatedUsers (serve_all trace st).
Proof.
  revert st. induction trace as [|[r req] trace IH]; intros st; cbn [run];
    [reflexivity|].
  etrans; [apply (users_grow r st req) | apply IH].
Qed.

(** The session store holds what it held at the start and the tokens the
    logins returned since. *)
Lemma run_users_issued (trace : list (route * request)) st :
  authenticatedUsers (serve_all trace st) = list_to_set (returned trace st) ∪ authenticatedUsers st.
Proof.
  revert st. induction trace as [|[r req] trace IH]; intros st;
    cbn [run issued].
  - set_solver.
  - rewrite IH. destruct (decide (r = POST_login)) as [->|Hr].
    + cbn [handle].
      destruct (login_cases env store st req)
        as [(_ & _ & N & _ & E)
           |[(_ & _ & _ & N & _ & E)
           |[(_ & _ & _ & _ & N & _ & _ & E)
           |(_ & _ & _ & _ & N & _ & _ & E)]]];
        rewrite N, E; set_solver.
    + rewrite (proj2 (handle_frame env store record_store bcrypt_compare r st req Hr)).
      destruct r; try congruence; reflexivity.
Qed.

Lemma issued_is_the_token (trace : list (route * request)) st t :
  t ∈ returned trace st -> t = "user_2_6_4_8".
Proof.
  revert st. induction trace as [|[r req] trace IH]; intros st; cbn [issued].
  - intros H. now apply elem_of_nil in H.
  - destruct r; try apply IH. cbn [handle].
    destruct (issued_token (fst (login env req st))) as [t'|] eqn:E; [|apply IH].
    intros [->|H]%elem_of_cons; [|now apply IH in H].
    now destruct (login_token env store st req t' E).
Qed.

End Gateway.

(** ** C10: the two carriers of a token *)

(** C10.  On every route declared with the gateway (upload, download, list,
    inline preview, the notes and passwords routes, the admin check) a
    request that carries a token in the [token] query parameter is handled
    exactly as the same request carrying it in the Authorization header:
    same response, same next state.  The gateway runs before anything else
    on these routes; it takes the header when there is a non-empty one and
    the query parameter otherwise; and its decision is a function of the
    token it took. *)
Theorem gateway_reads_both_carriers
    (env : environment) (store : Type)
    (record_store : route -> string -> value -> string -> store -> response * store)
    (bcrypt_compare : value -> option bool)
    (r : route) (st : server store) (req : request) (t : string) :
  r ∈ protected_routes ->
  handle env record_store bcrypt_compare r (in_query t req) st
    = handle env record_store bcrypt_compare r (in_header t req) st
  /\ (forall res, authenticateToken req st = Rejected res ->
        handle env record_store bcrypt_compare r req st = (res, st))
  /\ (forall h, authorization req = Some h -> h <> "" ->
        bearer_token req = Some (QString h))
  /\ (authorization req = None \/ authorization req = Some "" ->
        bearer_token req = query_token req)
  /\ (forall req', bearer_token req' = bearer_token req ->
        authenticateToken req' st = authenticateToken req st).
Proof.
  intros Hr. split; [|split; [|split; [|split]]].
  - apply in_protected_routes in Hr as [H1 H2].
    destruct r; try congruence; cbn [handle]; unfold behind_gateway;
      rewrite (authenticate_carriers store st req t);
      destruct (authenticateToken (in_query t req) st); reflexivity.
  - intros res. now apply handle_rejected.
  - intros h Hh Hne. unfold bearer_token. rewrite Hh.
    destruct (String.eqb_spec h ""); [contradiction | reflexivity].
  - intros [H|H]; unfold bearer_token; now rewrite H.
  - intros req'. apply authenticate_same_bearer.
Qed.

Lemma gateway_reads_both_carriers_witness :
  let st := snd (login default_env (login_request "10.0.0.7" [2; 6; 4; 8]) fresh) in
  GET_files ∈ protected_routes
  /\ handle default_env no_records no_password GET_files
       (in_query "user_2_6_4_8" (bare_request "10.0.0.7")) st
     = handle default_env no_records no_password GET_files
       (in_header "user_2_6_4_8" (bare_request "10.0.0.7")) st
  /\ status (fst (handle default_env no_records no_password GET_files
                    (in_query "user_2_6_4_8" (bare_request "10.0.0.7")) st)) = 200.
Proof.
  intros st.
  assert (H : GET_files ∈ protected_routes).
  { unfold protected_routes. rewrite !elem_of_cons. auto. }
  split; [exact H|]. split; [|reflexivity].
  exact (proj1 (gateway_reads_both_carriers default_env unit no_records no_password
                  GET_files st (bare_request "10.0.0.7") "user_2_6_4_8" H)).
Defined.

(** ** C3: issuing and validating tokens *)

(** C3, as the code has it.  In a process started afresh and then serving any
    requests, for a request presenting the string [t]: if a login returned
    [t], the gateway lets the request through as the identity [t], now and
    after any further requests; if no login returned [t], the gateway rejects
    the request (401 for an empty token, 403 otherwise).  There is no
    revocation: no request on any route takes a token out of the session
    store. *)
Theorem session_store_membership
    (env : environment) (store : Type)
    (record_store : route -> string -> value -> string -> store -> response * store)
    (bcrypt_compare : value -> option bool)
    (d : gmap string entry) (x : store)
    (trace : list (route * request)) (req : request) (t : string) :
  bearer_token req = Some (QString t) ->
  let st := run env record_store bcrypt_compare trace (initial_server d x) in
  (t ∈ issued env record_store bcrypt_compare trace (initial_server d x) ->
     forall more : list (route * request),
       authenticateToken req (run env record_store bcrypt_compare more st) = Authenticated t)
  /\ (t ∉ issued env record_store bcrypt_compare trace (initial_server d x) ->
      exists res, authenticateToken req st = Rejected res
                  /\ status res = (if String.eqb t "" then 401 else 403))
  /\ (forall (r : route) (req' : request),
        authenticatedUsers st
          ⊆ authenticatedUsers (snd (handle env record_store bcrypt_compare r req' st))).
Proof.
  intros Hb st. split; [|split].
  - intros Hi more.
    rewrite (authenticate_bearer store _ req t Hb).
    pose proof (issued_is_the_token env store record_store bcrypt_compare trace _ t Hi) as ->.
    cbn [String.eqb Ascii.eqb Bool.eqb].
    rewrite bool_decide_eq_true_2; [reflexivity|].
    apply (run_users_grow env store record_store bcrypt_compare more st).
    subst st. rewrite run_users_issued.
    apply elem_of_union_l, elem_of_list_to_set. exact Hi.
  - intros Hn. rewrite (authenticate_bearer store st req t Hb).
    destruct (String.eqb t ""); [eexists; split; reflexivity|].
    rewrite bool_decide_eq_false_2; [eexists; split; reflexivity|].
    subst st. rewrite run_users_issued. cbn [initial_server authenticatedUsers].
    rewrite elem_of_union, elem_of_list_to_set, elem_of_empty. tauto.
  - intros r req'. apply users_grow.
Qed.

Lemma session_store_membership_witness :
  let trace := [(POST_login, login_request "10.0.0.7" [2; 6; 4; 8])] in
  let req := in_header "user_2_6_4_8" (bare_request "10.0.0.9") in
  "user_2_6_4_8" ∈ issued default_env no_records no_password trace fresh
  /\ authenticateToken req (run default_env no_records no_password trace fresh)
     = Authenticated "user_2_6_4_8".
Proof.
  intros trace req.
  assert (H : "user_2_6_4_8" ∈ issued default_env no_records no_password trace fresh).
  { vm_compute. apply list_elem_of_here. }
  split; [exact H|].
  exact (proj1 (session_store_membership default_env unit no_records no_password
                  ∅ tt trace req "user_2_6_4_8" eq_refl) H []).
Defined.

(** C3 as stated fails on revocation: the only logout of the repository is
    the page forgetting its token, the server is not told, and the forgotten
    token goes on authenticating, whatever requests the server handles
    next. *)
Lemma forgotten_token_still_authenticates :
  let out := login default_env (login_request "10.0.0.7" [2; 6; 4; 8]) fresh in
  let pg := Homepage.handleLogin (fst out) (Homepage.Page None) in
  let req := in_header "user_2_6_4_8" (bare_request "10.0.0.9") in
  Homepage.authToken pg = Some "user_2_6_4_8"
  /\ Homepage.authToken (Homepage.handleLogout pg) = None
  /\ authenticateToken req (snd out) = Authenticated "user_2_6_4_8"
  /\ (forall (record_store : route -> string -> value -> string -> unit -> response * unit)
             (bcrypt_compare : value -> option bool)
             (more : list (route * request)),
        authenticateToken req (run default_env record_store bcrypt_compare more (snd out))
        = Authenticated "user_2_6_4_8").
Proof.
  cbv zeta. split; [reflexivity|]. split; [reflexivity|]. split; [reflexivity|].
  intros record_store bcrypt_compare more.
  rewrite (authenticate_bearer unit _ (in_header "user_2_6_4_8" (bare_request "10.0.0.9"))
             "user_2_6_4_8" eq_refl).
  cbn [String.eqb Ascii.eqb Bool.eqb].
  rewrite bool_decide_eq_true_2; [reflexivity|].
  apply (run_users_grow default_env unit record_store bcrypt_compare more).
  vm_compute. set_solver.
Qed.

(** ** C4: a retained token and a restart *)

(** C4 as stated fails: the session store lives in the memory of the process
    and starts empty, so the token a page retained from a correct login is
    rejected by the process started next. *)
Lemma retained_token_is_rejected_after_restart :
  let out := login default_env (login_request "10.0.0.7" [2; 6; 4; 8]) fresh in
  let pg := Homepage.handleLogin (fst out) (Homepage.Page None) in
  let req := in_header "user_2_6_4_8" (bare_request "10.0.0.7") in
  Homepage.authToken pg = Some "user_2_6_4_8"
  /\ authenticateToken req (snd out) = Authenticated "user_2_6_4_8"
  /\ authenticatedUsers (restart (snd out)) = ∅
  /\ handle default_env no_records no_password GET_files req (restart (snd out))
     = (status_message 403 "Invalid or expired token", restart (snd out)).
Proof. cbv zeta. repeat split. Qed.

(** C4, as the code has it.  A request presenting the token of a correct
    login to a process started afresh is rejected on every protected route
    with 403 "Invalid or expired token", the state staying as it is; once a
    login has succeeded in the new process (from any origin), the retained
    token authenticates again, and its holder did not have to enter the
    sequence. *)
Theorem restart_empties_the_session_store
    (env env' : environment) (store : Type)
    (record_store : route -> string -> value -> string -> store -> response * store)
    (bcrypt_compare : value -> option bool)
    (st : server store) (entered req : request) (t : string) (r : route) :
  issued_token (fst (login env entered st)) = Some t ->
  bearer_token req = Some (QString t) ->
  r ∈ protected_routes ->
  let st' := restart (snd (login env entered st)) in
  handle env' record_store bcrypt_compare r req st'
    = (status_message 403 "Invalid or expired token", st')
  /\ (forall again : request,
        is_Some (issued_token (fst (login env' again st'))) ->
        authenticateToken req (snd (login env' again st')) = Authenticated t).
Proof.
  intros Hi Hb Hr st'.
  destruct (login_token env store st entered t Hi) as [_ ->].
  split.
  - apply handle_rejected; [exact Hr|].
    rewrite (authenticate_bearer store st' req _ Hb).
    cbn [String.eqb Ascii.eqb Bool.eqb].
    rewrite bool_decide_eq_false_2; [reflexivity|].
    subst st'. cbn [restart initial_server authenticatedUsers]. apply not_elem_of_empty.
  - intros again [t' Ht'].
    rewrite (authenticate_bearer store _ req _ Hb).
    cbn [String.eqb Ascii.eqb Bool.eqb].
    rewrite bool_decide_eq_true_2; [reflexivity|].
    destruct (login_cases env' store st' again)
      as [(_ & _ & N & _)
         |[(_ & _ & _ & N & _)
         |[(_ & _ & _ & _ & N & _)
         |(_ & _ & _ & _ & _ & _ & _ & E)]]];
      try (rewrite N in Ht'; discriminate Ht').
    rewrite E. apply elem_of_union_l, elem_of_singleton. reflexivity.
Qed.

Lemma restart_empties_the_session_store_witness :
  let entered := login_request "10.0.0.7" [2; 6; 4; 8] in
  let req := in_query "user_2_6_4_8" (bare_request "10.0.0.7") in
  let st' := restart (snd (login default_env entered fresh)) in
  issued_token (fst (login default_env entered fresh)) = Some "user_2_6_4_8"
  /\ GET_images ∈ protected_routes
  /\ handle default_env no_records no_password GET_images req st'
     = (status_message 403 "Invalid or expired token", st').
Proof.
  intros entered req st'.
  assert (H : GET_images ∈ protected_routes).
  { unfold protected_routes. rewrite !elem_of_cons. auto. }
  split; [reflexivity|]. split; [exact H|].
  exact (proj1 (restart_empties_the_session_store default_env default_env unit
                  no_records no_password fresh entered req "user_2_6_4_8" GET_images
                  eq_refl eq_refl H)).
Defined.

(** ** C7: upload, then download *)




(** ** C8: the listing and its partition *)

Lemma fileNames_spec (d : gmap string entry) (name : string) :
  name ∈ fileNames d <-> exists bytes, d !! name = Some (File bytes).
Proof.
  unfold fileNames, readdir, stat_isFile.
  rewrite list_elem_of_In, filter_In, <- list_elem_of_In, list_elem_of_fmap.
  split.
  - intros [_ H]. destruct (d !! name) as [[bytes|]|]; try discriminate H. now exists bytes.
  - intros [bytes H]. rewrite H. split; [|reflexivity].
    exists (name, File bytes). split; [reflexivity|]. now apply elem_of_map_to_list.
Qed.

Lemma fileNames_NoDup (d : gmap string entry) : NoDup (fileNames d).
Proof.
  unfold fileNames, readdir.
  apply NoDup_ListNoDup, List.NoDup_filter, NoDup_ListNoDup, NoDup_fst_map_to_list.
Qed.

Lemma data_files_of_listing (names : list string) :
  Homepage.data_files (Object [("files", Array (map Str names))]) = names.
Proof.
  unfold Homepage.data_files. cbn [property List.find fst snd String.eqb Ascii.eqb Bool.eqb
                                   array_items].
  induction names as [|n names IH]; [reflexivity|].
  cbn [map omap list_omap]. cbn [map] in IH. now rewrite IH.
Qed.

Lemma filterFiles_spec (fileTypeFilter : string) (l : list string) (name : string) :
  name ∈ Homepage.filterFiles fileTypeFilter l
  <-> name ∈ l /\ Homepage.keeps fileTypeFilter name = true.
Proof.
  unfold Homepage.filterFiles. now rewrite !list_elem_of_In, filter_In.
Qed.

Lemma filterFiles_Permutation (fileTypeFilter : string) (l l' : list string) :
  l ≡ₚ l' -> Homepage.filterFiles fileTypeFilter l ≡ₚ Homepage.filterFiles fileTypeFilter l'.
Proof.
  unfold Homepage.filterFiles.
  induction 1 as [|x l l' _ IH|x y l|l l' l'' _ IH _ IH']; cbn [List.filter].
  - reflexivity.
  - destruct (Homepage.keeps fileTypeFilter x); [now constructor | exact IH].
  - destruct (Homepage.keeps fileTypeFilter x), (Homepage.keeps fileTypeFilter y);
      try reflexivity. constructor.
  - etrans; [exact IH | exact IH'].
Qed.

Lemma lastIndexOf_from_absent (c : ascii) (s : string) (i found : Z) :
  Homepage.has_char c s = false -> Homepage.lastIndexOf_from c s i found = found.
Proof.
  revert i found. induction s as [|a s IH]; intros i found; cbn; [reflexivity|].
  intros [Ha Hs]%orb_false_iff. rewrite Ha. now apply IH.
Qed.

Lemma lastIndexOf_from_last (c : ascii) (stem ext : string) (i found : Z) :
  Homepage.has_char c ext = false ->
  Homepage.lastIndexOf_from c (stem +:+ String c ext) i found
  = i + Z.of_nat (String.length stem).
Proof.
  intros H. revert i found. induction stem as [|a stem IH]; intros i found.
  - change ("" +:+ String c ext) with (String c ext).
    cbn [Homepage.lastIndexOf_from String.length].
    rewrite Ascii.eqb_refl, lastIndexOf_from_absent by exact H. lia.
  - change (String a stem +:+ String c ext) with (String a (stem +:+ String c ext)).
    cbn [Homepage.lastIndexOf_from String.length]. rewrite IH. lia.
Qed.

Lemma drop_chars_app (stem rest : string) :
  Homepage.drop_chars (String.length stem) (stem +:+ rest) = rest.
Proof.
  induction stem as [|a stem IH]; [now destruct rest|].
  change (String a stem +:+ rest) with (String a (stem +:+ rest)).
  cbn [String.length Homepage.drop_chars]. exact IH.
Qed.

(** The extension is what follows the last dot, dot included, in lower case. *)
Lemma extension_after_last_dot (stem ext : string) :
  Homepage.has_char "." ext = false ->
  Homepage.extension (stem +:+ "." +:+ ext) = String "." (Homepage.toLowerCase ext).
Proof.
  intros H. unfold Homepage.extension, Homepage.lastIndexOf, Homepage.substring.
  change ("." +:+ ext) with (String "." ext).
  rewrite lastIndexOf_from_last by exact H.
  rewrite Z.add_0_l, Nat2Z.id, drop_chars_app. reflexivity.
Qed.

Lemma lower_dot (a : ascii) : Homepage.lower a = "."%char -> a = "."%char.
Proof.
  destruct a as [[] [] [] [] [] [] [] []]; vm_compute; intros H;
    first [reflexivity | discriminate H].
Qed.

(** A name with no dot is no image. *)
Lemma isImage_no_dot (file : string) :
  Homepage.has_char "." file = false -> Homepage.isImage file = false.
Proof.
  intros H. unfold Homepage.isImage, Homepage.extension, Homepage.lastIndexOf.
  rewrite lastIndexOf_from_absent by exact H.
  change (Homepage.substring file (-1)) with file.
  destruct file as [|a rest]; [reflexivity|].
  cbn [Homepage.has_char] in H. apply orb_false_iff in H as [Ha _].
  assert (L : Ascii.eqb (Homepage.lower a) "." = false).
  { apply not_true_is_false. intros E. apply Ascii.eqb_eq, lower_dot in E. subst a.
    discriminate Ha. }
  cbn [Homepage.toLowerCase Homepage.imageExtensions existsb String.eqb]. now rewrite L.
Qed.

(** Case plays no part: a name ending in a dot and letters is an image
    exactly when those letters, in lower case, are one of the six. *)
Lemma isImage_by_extension (stem ext : string) :
  Homepage.has_char "." ext = false ->
  Homepage.isImage (stem +:+ "." +:+ ext) = true
  <-> Homepage.toLowerCase ext ∈ ["jpg"; "jpeg"; "png"; "gif"; "svg"; "webp"].
Proof.
  intros H. unfold Homepage.isImage. rewrite extension_after_last_dot by exact H.
  cbn [Homepage.imageExtensions existsb String.eqb]. rewrite !Ascii.eqb_refl, orb_false_r.
  rewrite !orb_true_iff, !elem_of_cons, elem_of_nil, !String.eqb_eq. tauto.
Qed.

(** C8.  For a client the gateway lets through, GET /files answers with the
    names of the regular files of the upload directory, each once, and with
    no directory; the page's two columns split that list by [isImage], which
    looks at what follows the last dot, in lower case, and accepts the six
    extensions .jpg .jpeg .png .gif .svg .webp (a name with no dot is no
    image).  When the files are a.png, b.txt and c.JPG the image column shows
    a.png and c.JPG and the other column b.txt. *)
Theorem listing_and_partition
    (env : environment) (store : Type)
    (record_store : route -> string -> value -> string -> store -> response * store)
    (bcrypt_compare : value -> option bool)
    (st : server store) (req : request) :
  authenticated req st ->
  let out := handle env record_store bcrypt_compare GET_files req st in
  let names := fileNames (uploads st) in
  out = (ok_json (Object [("files", Array (map Str names))]), st)
  /\ NoDup names
  /\ (forall name, name ∈ names <-> exists bytes, uploads st !! name = Some (File bytes))
  /\ Homepage.fetchAndFilterFiles "image" (fst out)
     = Some (Homepage.filterFiles "image" names)
  /\ Homepage.fetchAndFilterFiles "other" (fst out)
     = Some (Homepage.filterFiles "other" names)
  /\ (forall name, name ∈ Homepage.filterFiles "image" names
                   <-> name ∈ names /\ Homepage.isImage name = true)
  /\ (forall name, name ∈ Homepage.filterFiles "other" names
                   <-> name ∈ names /\ Homepage.isImage name = false)
  /\ Homepage.imageExtensions = [".jpg"; ".jpeg"; ".png"; ".gif"; ".svg"; ".webp"]
  /\ (forall stem ext, Homepage.has_char "." ext = false ->
        Homepage.isImage (stem +:+ "." +:+ ext) = true
        <-> Homepage.toLowerCase ext ∈ ["jpg"; "jpeg"; "png"; "gif"; "svg"; "webp"])
  /\ (forall name, Homepage.has_char "." name = false -> Homepage.isImage name = false)
  /\ (names ≡ₚ ["a.png"; "b.txt"; "c.JPG"] ->
      Homepage.filterFiles "image" names ≡ₚ ["a.png"; "c.JPG"]
      /\ Homepage.filterFiles "other" names ≡ₚ ["b.txt"]).
Proof.
  intros [id Hid] out names.
  assert (E : out = (ok_json (Object [("files", Array (map Str names))]), st)).
  { subst out. cbn [handle]. unfold behind_gateway. now rewrite Hid. }
  split; [exact E|]. split; [apply fileNames_NoDup|]. split; [apply fileNames_spec|].
  rewrite E. cbn [fst]. unfold Homepage.fetchAndFilterFiles. cbn [sent status ok_json].
  rewrite data_files_of_listing.
  split; [reflexivity|]. split; [reflexivity|].
  split; [intros name; apply filterFiles_spec|].
  split.
  { intros name. rewrite filterFiles_spec. unfold Homepage.keeps. cbn [String.eqb Ascii.eqb Bool.eqb].
    now rewrite negb_true_iff. }
  split; [reflexivity|]. split; [apply isImage_by_extension|]. split; [apply isImage_no_dot|].
  intros P. split.
  - now rewrite (filterFiles_Permutation "image" _ _ P).
  - now rewrite (filterFiles_Permutation "other" _ _ P).
Qed.

Lemma listing_and_partition_witness :
  let st := logged_in sample_uploads in
  let req := file_request "user_2_6_4_8" "" in
  let names := fileNames (uploads st) in
  authenticated req st
  /\ names ≡ₚ ["a.png"; "b.txt"; "c.JPG"]
  /\ Homepage.fetchAndFilterFiles "image"
       (fst (handle default_env no_records no_password GET_files req st))
     = Some (Homepage.filterFiles "image" names)
  /\ Homepage.filterFiles "image" names ≡ₚ ["a.png"; "c.JPG"]
  /\ Homepage.filterFiles "other" names ≡ₚ ["b.txt"].
Proof.
  intros st req names.
  assert (A : authenticated req st) by (exists "user_2_6_4_8"; reflexivity).
  assert (P : names ≡ₚ ["a.png"; "b.txt"; "c.JPG"]).
  { apply NoDup_Permutation.
    - apply fileNames_NoDup.
    - apply (bool_decide_unpack (NoDup ["a.png"; "b.txt"; "c.JPG"])). vm_compute. exact I.
    - intros name. subst names. vm_compute fileNames.
      rewrite !elem_of_cons, !elem_of_nil. tauto. }
  pose proof (listing_and_partition default_env unit no_records no_password st req A)
    as (_ & _ & _ & F & _ & _ & _ & _ & _ & _ & C).
  split; [exact A|]. split; [exact P|]. split; [exact F|]. exact (C P).
Defined.

(** * Further properties of the server *)

(** ** The admin password check *)

Section Admin.

Variable env : environment.
Variable store : Type.
Variable record_store : route -> string -> value -> string -> store -> response * store.
Variable bcrypt_compare : value -> option bool.
Implicit Types (st : server store) (req : request) (id : string).

(** Past the gateway, the check ends in one of five ways; it touches the
    admin counters only. *)
Lemma admin_cases id req st :
  let out := admin_check_password env bcrypt_compare id req st in
  let n := count (adminPasswordAttempts st) id in
  let m := adminPasswordAttempts (snd out) in
  let password := property (body req) "password" in
  (imageLoginAttempts (snd out) = imageLoginAttempts st
   /\ authenticatedUsers (snd out) = authenticatedUsers st
   /\ uploads (snd out) = uploads st
   /\ data (snd out) = data st
   /\ forall k, k <> id -> count m k = count (adminPasswordAttempts st) k)
  /\ ((MAX_ADMIN_PASSWORD_ATTEMPTS env <= n
       /\ fst out = status_message 429
                      "Too many admin password attempts. Please try again later."
       /\ count m id = n)
      \/ (n < MAX_ADMIN_PASSWORD_ATTEMPTS env /\ truthy password = false
          /\ fst out = status_message 400 "Password is required."
          /\ count m id = n)
      \/ (n < MAX_ADMIN_PASSWORD_ATTEMPTS env /\ truthy password = true
          /\ bcrypt_compare password = Some true
          /\ fst out = ok_json (Object [("success", Boolean true)])
          /\ count m id = 0)
      \/ (n < MAX_ADMIN_PASSWORD_ATTEMPTS env /\ truthy password = true
          /\ bcrypt_compare password = Some false
          /\ fst out = status_message 403 "Incorrect admin password."
          /\ count m id = n + 1)
      \/ (n < MAX_ADMIN_PASSWORD_ATTEMPTS env /\ truthy password = true
          /\ bcrypt_compare password = None
          /\ fst out = status_message 500 "Error verifying password."
          /\ count m id = n)).
Proof.
  intros out n m password. subst out n m password.
  unfold admin_check_password. cbn [adminPasswordAttempts set_adminPasswordAttempts].
  rewrite count_initialise.
  destruct (Z.geb_spec (count (adminPasswordAttempts st) id) (MAX_ADMIN_PASSWORD_ATTEMPTS env))
    as [Hge|Hlt].
  { cbn. split.
    - repeat split; auto. intros k _. apply count_initialise.
    - left. repeat split; [lia | apply count_initialise]. }
  destruct (truthy (property (body req) "password")) eqn:Ht; cbn [negb].
  2:{ cbn. split.
      - repeat split; auto. intros k _. apply count_initialise.
      - right. left. repeat split; [lia | apply count_initialise]. }
  destruct (bcrypt_compare (property (body req) "password")) as [[|]|] eqn:Hb; cbn; split.
  - repeat split; auto. intros k Hk. rewrite count_insert.
    destruct (decide (id = k)); [congruence | apply count_initialise].
  - right. right. left. repeat split; [lia|].
    rewrite count_insert. now destruct (decide (id = id)).
  - repeat split; auto. intros k Hk. rewrite count_increment.
    destruct (decide (id = k)); [congruence | apply count_initialise].
  - right. right. right. left. repeat split; [lia|].
    rewrite count_increment, count_initialise. now destruct (decide (id = id)).
  - repeat split; auto. intros k _. apply count_initialise.
  - right. right. right. right. repeat split; [lia | apply count_initialise].
Qed.

End Admin.

(** X1.  For a request the gateway lets through as the identity [id], POST
    /admin/check-password answers: 429 once the counter of [id] has reached
    the admin ceiling, whatever password is sent, the right one included;
    below the ceiling, 400 for a missing or empty password and 500 when the
    comparison throws, the counter staying as it is in both cases; 200
    [{ success: true }] for the right password, the counter going back to 0;
    403 for a wrong one, the counter going up by one. *)
Theorem admin_check_outcomes
    (env : environment) (store : Type)
    (record_store : route -> string -> value -> string -> store -> response * store)
    (bcrypt_compare : value -> option bool)
    (st : server store) (req : request) (id : string) :
  authenticateToken req st = Authenticated id ->
  let out := handle env record_store bcrypt_compare POST_admin_check_password req st in
  let n := count (adminPasswordAttempts st) id in
  let n' := count (adminPasswordAttempts (snd out)) id in
  let password := property (body req) "password" in
  (MAX_ADMIN_PASSWORD_ATTEMPTS env <= n ->
     status (fst out) = 429 /\ n' = n)
  /\ (n < MAX_ADMIN_PASSWORD_ATTEMPTS env -> truthy password = false ->
      fst out = status_message 400 "Password is required." /\ n' = n)
  /\ (n < MAX_ADMIN_PASSWORD_ATTEMPTS env -> truthy password = true ->
      (bcrypt_compare password = Some true ->
         fst out = ok_json (Object [("success", Boolean true)]) /\ n' = 0)
      /\ (bcrypt_compare password = Some false ->
          fst out = status_message 403 "Incorrect admin password." /\ n' = n + 1)
      /\ (bcrypt_compare password = None ->
          fst out = status_message 500 "Error verifying password." /\ n' = n)).
Proof.
  intros Hid out n n' password.
  assert (E : out = admin_check_password env bcrypt_compare id req st).
  { subst out. cbn [handle]. unfold behind_gateway. now rewrite Hid. }
  subst n n' password. rewrite E.
  destruct (admin_cases env store bcrypt_compare id req st)
    as [_ [(H1 & R & C)
          |[(H1 & T & R & C)
          |[(H1 & T & B & R & C)
          |[(H1 & T & B & R & C)
          |(H1 & T & B & R & C)]]]]];
    rewrite R, C; cbn [status status_message fst];
    (split; [|split]); intros; try lia; try congruence;
    try (split; [reflexivity|]; try reflexivity);
    repeat split; intros; try congruence; try reflexivity.
Qed.

Lemma admin_check_outcomes_witness :
  let st := logged_in ∅ in
  let req := json_request "user_2_6_4_8" "" (Object [("password", Str "letmein")]) in
  let out := handle default_env no_records sample_bcrypt POST_admin_check_password req st in
  authenticateToken req st = Authenticated "user_2_6_4_8"
  /\ fst out = status_message 403 "Incorrect admin password."
  /\ count (adminPasswordAttempts (snd out)) "user_2_6_4_8" = 1.
Proof.
  intros st req out.
  pose proof (admin_check_outcomes default_env unit no_records sample_bcrypt st req
                "user_2_6_4_8" eq_refl) as (_ & _ & H).
  destruct (H eq_refl eq_refl) as (_ & W & _).
  split; [reflexivity|]. exact (W eq_refl).
Defined.

(** ** What each route can change *)

Ltac route_mem :=
  unfold record_routes, read_only_routes;
  rewrite ?elem_of_cons, ?elem_of_nil; intuition congruence.

Section Footprint.

Variable env : environment.
Variable store : Type.
Variable record_store : route -> string -> value -> string -> store -> response * store.
Variable bcrypt_compare : value -> option bool.
Implicit Types (st : server store) (req : request).

Lemma login_footprint st req :
  adminPasswordAttempts (snd (login env req st)) = adminPasswordAttempts st
  /\ uploads (snd (login env req st)) = uploads st
  /\ data (snd (login env req st)) = data st.
Proof.
  unfold login. cbn [imageLoginAttempts set_imageLoginAttempts].
  destruct (_ >=? _); [now cbn|].
  destruct (negb _ || negb _); [now cbn|].
  destruct (sequence_matches _ _); now cbn.
Qed.

Lemma handle_footprint (r : route) st req :
  let st' := snd (handle env record_store bcrypt_compare r req st) in
  (r <> POST_login ->
     imageLoginAttempts st' = imageLoginAttempts st
     /\ authenticatedUsers st' = authenticatedUsers st)
  /\ (r <> POST_admin_check_password ->
      adminPasswordAttempts st' = adminPasswordAttempts st)
  /\ (r <> POST_upload -> uploads st' = uploads st)
  /\ (r ∉ record_routes -> data st' = data st)
  /\ (r ∈ read_only_routes -> st' = st).
Proof.
  intros st'. subst st'.
  split; [apply handle_frame|].
  destruct (decide (r = POST_login)) as [->|Hl].
  { cbn [handle]. destruct (login_footprint st req) as (A & U & D).
    repeat split; auto. intros H. exfalso. revert H. route_mem. }
  destruct r; try congruence; cbn [handle]; unfold behind_gateway;
    try (destruct (authenticateToken req st) as [res|id];
         [cbn [snd]; repeat split; auto|]).
  - cbn. repeat split; auto.
  - unfold upload. destruct (file_part req) as [part|];
      [destruct (String.eqb (originalname part) "");
       [|destruct (resolve (uploads st) (originalname part)) as [[?|]|]]|];
      cbn; repeat split; auto; try congruence; intros H; exfalso; revert H; route_mem.
  - unfold download. destruct (resolve (uploads st) (params_filename req)) as [[?|]|];
      cbn; repeat split; auto.
  - cbn. repeat split; auto.
  - unfold records. destruct (record_store _ _ _ _ _).
    cbn; repeat split; auto; intros H; exfalso; revert H; route_mem.
  - unfold records. destruct (record_store _ _ _ _ _).
    cbn; repeat split; auto; intros H; exfalso; revert H; route_mem.
  - unfold records. destruct (record_store _ _ _ _ _).
    cbn; repeat split; auto; intros H; exfalso; revert H; route_mem.
  - unfold records. destruct (record_store _ _ _ _ _).
    cbn; repeat split; auto; intros H; exfalso; revert H; route_mem.
  - unfold records. destruct (record_store _ _ _ _ _).
    cbn; repeat split; auto; intros H; exfalso; revert H; route_mem.
  - unfold images. destruct (resolve (uploads st) (params_filename req)) as [[?|]|];
      cbn; repeat split; auto.
  - destruct (admin_cases env store bcrypt_compare id req st) as [(I & U & F & D & _) _].
    repeat split; auto; try congruence. intros H. exfalso. revert H. route_mem.
  - unfold records. destruct (record_store _ _ _ _ _).
    cbn; repeat split; auto; intros H; exfalso; revert H; route_mem.
  - unfold records. destruct (record_store _ _ _ _ _).
    cbn; repeat split; auto; intros H; exfalso; revert H; route_mem.
Qed.

End Footprint.

(** X2.  What a request can change depends on its route alone: only POST
    /login moves the login counters or the session store, only POST
    /admin/check-password the admin counters, only POST /upload the upload
    directory, only the notes and passwords routes the data files; and GET
    /test, /download, /files and /images leave the whole state as it is,
    whether the gateway lets the request through or not. *)
Theorem route_footprints
    (env : environment) (store : Type)
    (record_store : route -> string -> value -> string -> store -> response * store)
    (bcrypt_compare : value -> option bool)
    (r : route) (st : server store) (req : request) :
  let st' := snd (handle env record_store bcrypt_compare r req st) in
  (r <> POST_login ->
     imageLoginAttempts st' = imageLoginAttempts st
     /\ authenticatedUsers st' = authenticatedUsers st)
  /\ (r <> POST_admin_check_password ->
      adminPasswordAttempts st' = adminPasswordAttempts st)
  /\ (r <> POST_upload -> uploads st' = uploads st)
  /\ (r ∉ record_routes -> data st' = data st)
  /\ (r ∈ read_only_routes -> st' = st).
Proof. apply handle_footprint. Qed.

Lemma route_footprints_witness :
  let st := logged_in sample_uploads in
  let up := upload_request "user_2_6_4_8" "d.gif" [Byte.x47] in
  let st' := snd (handle default_env no_records sample_bcrypt POST_upload up st) in
  uploads st' <> uploads st
  /\ imageLoginAttempts st' = imageLoginAttempts st
  /\ authenticatedUsers st' = authenticatedUsers st
  /\ adminPasswordAttempts st' = adminPasswordAttempts st
  /\ snd (handle default_env no_records sample_bcrypt GET_download
            (file_request "user_2_6_4_8" "d.gif") st') = st'.
Proof.
  intros st up st'.
  pose proof (route_footprints default_env unit no_records sample_bcrypt POST_upload st up)
    as (L & A & _).
  pose proof (route_footprints default_env unit no_records sample_bcrypt GET_download st'
                (file_request "user_2_6_4_8" "d.gif")) as (_ & _ & _ & _ & R).
  split.
  - intros E. assert (N : uploads st' !! "d.gif" = uploads st !! "d.gif") by now rewrite E.
    vm_compute in N. discriminate N.
  - destruct L as [L1 L2]; [discriminate|].
    split; [exact L1|]. split; [exact L2|]. split; [apply A; discriminate|].
    apply R. unfold read_only_routes. rewrite !elem_of_cons. auto.
Defined.

(** ** Invariants of a running process *)

Section Reachable.

Variable env : environment.
Variable store : Type.
Variable record_store : route -> string -> value -> string -> store -> response * store.
Variable bcrypt_compare : value -> option bool.
Implicit Types (st : server store) (req : request).

Lemma counters_bounded_step (r : route) st req :
  counters_bounded env st ->
  counters_bounded env (snd (handle env record_store bcrypt_compare r req st)).
Proof.
  intros B k. destruct (B k) as [Bi Ba].
  pose proof (handle_footprint env store record_store bcrypt_compare r st req)
    as (Fl & Fa & _).
  split.
  - destruct (decide (r = POST_login)) as [->|Hr];
      [|now rewrite (proj1 (Fl Hr))].
    cbn [handle].
    destruct (login_cases env store st req)
      as [(_ & _ & _ & Hk & _)
         |[(_ & _ & _ & _ & Hk & _)
         |[(Hlt & _ & _ & _ & _ & Hk & Ho & _)
         |(_ & _ & _ & _ & _ & Hk & Ho & _)]]].
    + now rewrite Hk.
    + now rewrite Hk.
    + destruct (decide (k = ip req)) as [->|Hne]; [|now rewrite Ho].
      rewrite Hk. lia.
    + destruct (decide (k = ip req)) as [->|Hne]; [|now rewrite Ho].
      rewrite Hk. lia.
  - destruct (decide (r = POST_admin_check_password)) as [->|Hr];
      [|now rewrite (Fa Hr)].
    cbn [handle]. unfold behind_gateway.
    destruct (authenticateToken req st) as [res|id]; [exact Ba|].
    destruct (B id) as [_ Bid].
    destruct (admin_cases env store bcrypt_compare id req st)
      as [(_ & _ & _ & _ & Ho) C].
    destruct (decide (k = id)) as [->|Hne]; [|now rewrite Ho].
    destruct C as [(_ & _ & C)|[(_ & _ & _ & C)|[(_ & _ & _ & _ & C)
                  |[(Hlt & _ & _ & _ & C)|(_ & _ & _ & _ & C)]]]]; rewrite C; lia.
Qed.

Lemma counters_bounded_run (trace : list (route * request)) st :
  counters_bounded env st ->
  counters_bounded env (run env record_store bcrypt_compare trace st).
Proof.
  revert st. induction trace as [|[r req] trace IH]; intros st B; cbn [run]; [exact B|].
  apply IH, counters_bounded_step, B.
Qed.

Lemma counters_bounded_initial (d : gmap string entry) (x : store) :
  counters_bounded env (initial_server d x).
Proof. intros k. unfold count. cbn. rewrite !lookup_empty. cbn. lia. Qed.

End Reachable.


Section Identity.

Variable env : environment.
Variable store : Type.
Variable record_store : route -> string -> value -> string -> store -> response * store.
Variable bcrypt_compare : value -> option bool.
Implicit Types (st : server store) (req : request).

Lemma authenticated_member st req (id : string) :
  authenticateToken req st = Authenticated id -> id ∈ authenticatedUsers st.
Proof.
  unfold authenticateToken. intros Hid.
  destruct (no_token (bearer_token req)); [discriminate Hid|].
  unfold has_token in Hid.
  destruct (bearer_token req) as [[t| |]|]; try discriminate Hid.
  destruct (bool_decide (t ∈ authenticatedUsers st)) eqn:E; [|discriminate Hid].
  injection Hid as <-. now apply bool_decide_eq_true in E.
Qed.

Lemma single_identity_step (r : route) st req :
  single_identity st ->
  single_identity (snd (handle env record_store bcrypt_compare r req st)).
Proof.
  intros [U A].
  pose proof (handle_footprint env store record_store bcrypt_compare r st req)
    as (Fl & Fa & _).
  split.
  - destruct (decide (r = POST_login)) as [->|Hr];
      [|now rewrite (proj2 (Fl Hr))].
    cbn [handle].
    destruct (login_cases env store st req)
      as [(_ & _ & _ & _ & E)
         |[(_ & _ & _ & _ & _ & E)
         |[(_ & _ & _ & _ & _ & _ & _ & E)
         |(_ & _ & _ & _ & _ & _ & _ & E)]]];
      rewrite E; auto.
    intros t [->%elem_of_singleton|H]%elem_of_union; auto.
  - destruct (decide (r = POST_admin_check_password)) as [->|Hr];
      [|now rewrite (Fa Hr)].
    cbn [handle]. unfold behind_gateway.
    destruct (authenticateToken req st) as [res|id] eqn:G; [exact A|].
    pose proof (U id (authenticated_member st req id G)) as ->.
    destruct (admin_cases env store bcrypt_compare "user_2_6_4_8" req st)
      as [(_ & _ & _ & _ & Ho) _].
    intros k Hk. rewrite Ho by exact Hk. now apply A.
Qed.

Lemma single_identity_run (trace : list (route * request)) st :
  single_identity st ->
  single_identity (run env record_store bcrypt_compare trace st).
Proof.
  revert st. induction trace as [|[r req] trace IH]; intros st B; cbn [run]; [exact B|].
  apply IH, single_identity_step, B.
Qed.

Lemma single_identity_initial (d : gmap string entry) (x : store) :
  single_identity (initial_server d x).
Proof.
  split.
  - intros t H. now apply elem_of_empty in H.
  - intros k _. unfold count. cbn. now rewrite lookup_empty.
Qed.

End Identity.

(** X4.  In a process started afresh, after any requests, whoever the gateway
    lets through is the identity "user_2_6_4_8", and the session store then
    holds that one token and nothing else; no admin counter but that of
    "user_2_6_4_8" is ever above 0.  All clients share one identity, and with
    it one list of notes, one list of passwords and one admin counter. *)
Theorem one_shared_identity
    (env : environment) (store : Type)
    (record_store : route -> string -> value -> string -> store -> response * store)
    (bcrypt_compare : value -> option bool)
    (d : gmap string entry) (x : store) (trace : list (route * request))
    (req : request) (id : string) :
  let st := run env record_store bcrypt_compare trace (initial_server d x) in
  authenticateToken req st = Authenticated id ->
  id = "user_2_6_4_8"
  /\ authenticatedUsers st = {["user_2_6_4_8"]}
  /\ (forall k, k <> "user_2_6_4_8" -> count (adminPasswordAttempts st) k = 0).
Proof.
  intros st Hid.
  destruct (single_identity_run env store record_store bcrypt_compare trace
              (initial_server d x) (single_identity_initial store d x)) as [U A].
  fold st in U, A.
  pose proof (authenticated_member store st req id Hid) as Hin.
  pose proof (U id Hin) as ->.
  split; [reflexivity|]. split; [|exact A].
  apply set_eq. intros t. rewrite elem_of_singleton. split; [apply U | now intros ->].
Qed.

Lemma one_shared_identity_witness :
  let trace := [(POST_login, login_request "10.0.0.7" [2; 6; 4; 8]);
                (POST_login, login_request "192.168.1.20" [2; 6; 4; 8])] in
  let st := run default_env no_records sample_bcrypt trace fresh in
  let req := in_query "user_2_6_4_8" (bare_request "172.16.0.3") in
  authenticateToken req st = Authenticated "user_2_6_4_8"
  /\ authenticatedUsers st = {["user_2_6_4_8"]}.
Proof.
  intros trace st req. split; [reflexivity|].
  exact (proj1 (proj2 (one_shared_identity default_env unit no_records sample_bcrypt
                         ∅ tt trace req "user_2_6_4_8" eq_refl))).
Defined.

(** ** A ceiling below zero *)

Lemma nobody_logs_in_below_zero
    (env : environment) (store : Type)
    (record_store : route -> string -> value -> string -> store -> response * store)
    (bcrypt_compare : value -> option bool)
    (trace : list (route * request)) (st : server store) :
  MAX_IMAGE_LOGIN_ATTEMPTS env < 0 ->
  counters_bounded env st ->
  authenticatedUsers (run env record_store bcrypt_compare trace st) = authenticatedUsers st.
Proof.
  intros Hneg. revert st. induction trace as [|[r req] trace IH]; intros st B; cbn [run];
    [reflexivity|].
  rewrite IH by (apply counters_bounded_step, B).
  destruct (decide (r = POST_login)) as [->|Hr].
  - cbn [handle]. rewrite login_throttled; [reflexivity|].
    destruct (B (ip req)) as [[H0 _] _]. lia.
  - now rewrite (proj2 (handle_frame env store record_store bcrypt_compare r st req Hr)).
Qed.

(** X5.  The login ceiling is [parseInt(process.env.MAX_IMAGE_LOGIN_ATTEMPTS)
    || 5]: it is never 0, an unset, unparsable or zero variable giving 5, and
    a negative value is taken as it is.  With a negative ceiling a process
    started afresh answers every login with 429, the secret included,
    registers no token, and so rejects every request on every protected
    route. *)
Theorem negative_ceiling_disables_login
    (env : environment) (store : Type)
    (record_store : route -> string -> value -> string -> store -> response * store)
    (bcrypt_compare : value -> option bool)
    (d : gmap string entry) (x : store) (trace : list (route * request))
    (req : request) (r : route) :
  let st := run env record_store bcrypt_compare trace (initial_server d x) in
  MAX_IMAGE_LOGIN_ATTEMPTS env <> 0
  /\ (parseInt_MAX_IMAGE_LOGIN_ATTEMPTS env = None
      \/ parseInt_MAX_IMAGE_LOGIN_ATTEMPTS env = Some 0 ->
      MAX_IMAGE_LOGIN_ATTEMPTS env = 5)
  /\ (forall n, parseInt_MAX_IMAGE_LOGIN_ATTEMPTS env = Some n -> n < 0 ->
      fst (login env req st)
      = status_message 429 "Too many login attempts. Please try again later."
      /\ authenticatedUsers st = ∅
      /\ (r ∈ protected_routes ->
          exists res, handle env record_store bcrypt_compare r req st = (res, st)
                      /\ (status res = 401 \/ status res = 403))).
Proof.
  intros st. unfold MAX_IMAGE_LOGIN_ATTEMPTS, or_default.
  split; [|split].
  - destruct (parseInt_MAX_IMAGE_LOGIN_ATTEMPTS env) as [n|]; [|discriminate].
    destruct (Z.eqb_spec n 0); [discriminate | assumption].
  - intros [-> | ->]; reflexivity.
  - intros n Hn Hneg.
    assert (M : MAX_IMAGE_LOGIN_ATTEMPTS env = n).
    { unfold MAX_IMAGE_LOGIN_ATTEMPTS, or_default. rewrite Hn.
      destruct (Z.eqb_spec n 0); [lia | reflexivity]. }
    pose proof (counters_bounded_run env store record_store bcrypt_compare trace _
                  (counters_bounded_initial env store d x)) as B.
    fold st in B.
    assert (U : authenticatedUsers st = ∅).
    { subst st. rewrite nobody_logs_in_below_zero; [reflexivity | lia |].
      apply counters_bounded_initial. }
    split; [|split; [exact U|]].
    + rewrite login_throttled; [reflexivity|].
      destruct (B (ip req)) as [[H0 _] _]. lia.
    + intros Hr.
      assert (G : exists res, authenticateToken req st = Rejected res
                              /\ (status res = 401 \/ status res = 403)).
      { unfold authenticateToken.
        destruct (no_token (bearer_token req)); [eexists; split; [reflexivity|now left]|].
        unfold has_token. destruct (bearer_token req) as [[t| |]|];
          try (eexists; split; [reflexivity|now right]).
        rewrite U, bool_decide_eq_false_2 by apply not_elem_of_empty.
        eexists; split; [reflexivity|now right]. }
      destruct G as (res & G & S). exists res. split; [|exact S].
      now apply handle_rejected.
Qed.

Lemma negative_ceiling_disables_login_witness :
  let env := Environment (Some (-1)) None in
  let req := login_request "10.0.0.7" [2; 6; 4; 8] in
  MAX_IMAGE_LOGIN_ATTEMPTS env = -1
  /\ fst (login env req fresh)
     = status_message 429 "Too many login attempts. Please try again later.".
Proof.
  intros env req. split; [reflexivity|].
  exact (proj1 (proj2 (proj2 (negative_ceiling_disables_login env unit no_records
                                 sample_bcrypt ∅ tt [] req GET_files))
                  (-1) eq_refl eq_refl)).
Defined.

(** ** The upload directory *)

Section Files.

Variable env : environment.
Variable store : Type.
Variable record_store : route -> string -> value -> string -> store -> response * store.
Variable bcrypt_compare : value -> option bool.
Implicit Types (st : server store) (req : request).

(** POST /upload either stores the part and answers 200, or changes
    nothing. *)
Lemma upload_cases st req :
  let out := handle env record_store bcrypt_compare POST_upload req st in
  (exists part,
      file_part req = Some part
      /\ originalname part <> ""
      /\ resolve (uploads st) (originalname part) <> Some Dir
      /\ authenticated req st
      /\ out = (ok_json (Object [("message", Str "File uploaded successfully!");
                                 ("filename", Str (originalname part))]),
                set_uploads (<[originalname part := File (content part)]> (uploads st)) st))
  \/ (snd out = st
      /\ (status (fst out) = 400 \/ status (fst out) = 401
          \/ status (fst out) = 403 \/ status (fst out) = 500)).
Proof.
  intros out. subst out. cbn [handle]. unfold behind_gateway.
  destruct (authenticateToken req st) as [res|id] eqn:G.
  { right. split; [reflexivity|]. cbn [fst].
    unfold authenticateToken in G.
    destruct (no_token (bearer_token req)); [injection G as <-; auto|].
    destruct (has_token st (bearer_token req)); [discriminate G|].
    injection G as <-. auto. }
  unfold upload. destruct (file_part req) as [part|]; [|right; cbn; auto].
  destruct (String.eqb_spec (originalname part) "") as [E|E]; [right; cbn; auto|].
  destruct (resolve (uploads st) (originalname part)) as [[b|]|] eqn:R.
  - left. exists part. split; [reflexivity|]. split; [exact E|].
    split; [rewrite R; discriminate|]. split; [now exists id | reflexivity].
  - right. cbn. auto 6.
  - left. exists part. split; [reflexivity|]. split; [exact E|].
    split; [rewrite R; discriminate|]. split; [now exists id | reflexivity].
Qed.

End Files.



(** X7.  After an upload that answered 200, GET /files lists the uploaded
    name, and lists any other name exactly when it listed it before. *)
Theorem upload_then_listing
    (env : environment) (store : Type)
    (record_store : route -> string -> value -> string -> store -> response * store)
    (bcrypt_compare : value -> option bool)
    (st : server store) (req : request) (part : upload_part) :
  file_part req = Some part ->
  let out := handle env record_store bcrypt_compare POST_upload req st in
  status (fst out) = 200 ->
  forall g : string,
    g ∈ fileNames (uploads (snd out))
    <-> g = originalname part \/ g ∈ fileNames (uploads st).
Proof.
  intros Hp out Hok g. subst out.
  destruct (upload_cases env store record_store bcrypt_compare st req)
    as [(part' & Hp' & _ & _ & _ & E)|[_ S]].
  2:{ rewrite Hok in S. destruct S as [S|[S|[S|S]]]; discriminate S. }
  rewrite Hp in Hp'. injection Hp' as <-.
  rewrite E. cbn [snd uploads set_uploads]. rewrite !fileNames_spec.
  destruct (decide (g = originalname part)) as [->|Hne].
  - rewrite lookup_insert_eq. split; [auto | intros _; eauto].
  - rewrite lookup_insert_ne by congruence. tauto.
Qed.

Lemma upload_then_listing_witness :
  let st := logged_in sample_uploads in
  let req := upload_request "user_2_6_4_8" "d.gif" [Byte.x47] in
  let out := handle default_env no_records sample_bcrypt POST_upload req st in
  status (fst out) = 200
  /\ "d.gif" ∈ fileNames (uploads (snd out))
  /\ "d.gif" ∉ fileNames (uploads st).
Proof.
  intros st req out.
  assert (S : status (fst out) = 200) by reflexivity.
  split; [exact S|]. split.
  - apply (upload_then_listing default_env unit no_records sample_bcrypt st req
             (UploadPart "d.gif" [Byte.x47]) eq_refl S "d.gif"). now left.
  - rewrite fileNames_spec. intros [b H]. vm_compute in H. discriminate H.
Defined.



(** X9.  On every protected route the gateway decides on the header alone
    when there is a non-empty one: a header that is no registered token is
    answered 403 even when the [token] query parameter carries a registered
    one.  With no header (or an empty one), a missing or empty query
    parameter is answered 401, and a query parameter that is no string (a
    repeated or bracketed [token]) 403.  The state is as it was in each
    case. *)
Theorem gateway_verdicts
    (env : environment) (store : Type)
    (record_store : route -> string -> value -> string -> store -> response * store)
    (bcrypt_compare : value -> option bool)
    (r : route) (st : server store) (req : request) :
  r ∈ protected_routes ->
  (forall h, authorization req = Some h -> h <> "" -> h ∉ authenticatedUsers st ->
     handle env record_store bcrypt_compare r req st
     = (status_message 403 "Invalid or expired token", st))
  /\ (authorization req = None \/ authorization req = Some "" ->
      query_token req = None \/ query_token req = Some (QString "") ->
      handle env record_store bcrypt_compare r req st
      = (status_message 401 "Authentication token required", st))
  /\ (authorization req = None \/ authorization req = Some "" ->
      (exists items, query_token req = Some (QArray items))
      \/ (exists fields, query_token req = Some (QObject fields)) ->
      handle env record_store bcrypt_compare r req st
      = (status_message 403 "Invalid or expired token", st)).
Proof.
  intros Hr. split; [|split].
  - intros h Hh Hne Hn. apply handle_rejected; [exact Hr|].
    unfold authenticateToken, bearer_token. rewrite Hh.
    destruct (String.eqb_spec h ""); [contradiction|]. cbn [no_token has_token].
    destruct (String.eqb_spec h ""); [contradiction|].
    now rewrite bool_decide_eq_false_2.
  - intros Ha Hq. apply handle_rejected; [exact Hr|].
    unfold authenticateToken, bearer_token.
    destruct Ha as [-> | ->], Hq as [-> | ->]; reflexivity.
  - intros Ha Hq. apply handle_rejected; [exact Hr|].
    unfold authenticateToken, bearer_token.
    destruct Ha as [-> | ->], Hq as [[items ->] | [fields ->]]; reflexivity.
Qed.

Lemma gateway_verdicts_witness :
  let st := logged_in ∅ in
  let req := Request "10.0.0.7" None (Some "guess") (Some (QString "user_2_6_4_8"))
                     (Object []) "" "" None in
  GET_files ∈ protected_routes
  /\ authenticateToken (in_query "user_2_6_4_8" req) st = Authenticated "user_2_6_4_8"
  /\ handle default_env no_records sample_bcrypt GET_files req st
     = (status_message 403 "Invalid or expired token", st).
Proof.
  intros st req.
  assert (H : GET_files ∈ protected_routes).
  { unfold protected_routes. rewrite !elem_of_cons. auto. }
  split; [exact H|]. split; [reflexivity|].
  apply (proj1 (gateway_verdicts default_env unit no_records sample_bcrypt GET_files st req H)
           "guess" eq_refl).
  - discriminate.
  - apply (bool_decide_eq_false_1 ("guess" ∈ authenticatedUsers st)). vm_compute. reflexivity.
Defined.

(** * The record stores *)

Section RecordLists.

Context {A : Type}.
Implicit Types (p : A -> bool) (l : list A).

Lemma findIndex_from_none p l (i : Z) :
  Forall (fun y => p y = false) l -> Records.findIndex_from p l i = -1.
Proof.
  intros H. revert i. induction H as [|y l Hy _ IH]; intros i; cbn; [reflexivity|].
  now rewrite Hy.
Qed.

Lemma findIndex_from_first p l1 l2 (x : A) (i : Z) :
  Forall (fun y => p y = false) l1 -> p x = true ->
  Records.findIndex_from p (l1 ++ x :: l2) i = i + Z.of_nat (length l1).
Proof.
  intros H Hx. revert i. induction H as [|y l Hy _ IH]; intros i; cbn [app length].
  - cbn. rewrite Hx. lia.
  - cbn [Records.findIndex_from]. rewrite Hy, IH. lia.
Qed.

(** A list either has no element satisfying [p], or splits at the first one
    that does. *)
Lemma first_match p l :
  Forall (fun y => p y = false) l
  \/ exists l1 x l2, l = l1 ++ x :: l2 /\ Forall (fun y => p y = false) l1 /\ p x = true.
Proof.
  induction l as [|y l IH]; [left; constructor|].
  destruct (p y) eqn:Hy.
  - right. exists [], y, l. repeat split; [constructor | exact Hy].
  - destruct IH as [IH|(l1 & x & l2 & -> & H1 & Hx)].
    + left. now constructor.
    + right. exists (y :: l1), x, l2. repeat split; [now constructor | exact Hx].
Qed.

Lemma splice1_first p l1 l2 (x : A) :
  Forall (fun y => p y = false) l1 -> p x = true ->
  Records.splice1 (Records.findIndex p (l1 ++ x :: l2)) (l1 ++ x :: l2) = l1 ++ l2.
Proof.
  intros H Hx. unfold Records.splice1, Records.findIndex.
  rewrite (findIndex_from_first p l1 l2 x 0 H Hx), Z.add_0_l, Nat2Z.id.
  apply delete_middle.
Qed.

Lemma find_none p l :
  Forall (fun y => p y = false) l -> List.find p l = None.
Proof.
  intros H. induction H as [|y l Hy _ IH]; cbn; [reflexivity|]. now rewrite Hy.
Qed.

Lemma find_first p l1 l2 (x : A) :
  Forall (fun y => p y = false) l1 -> p x = true ->
  List.find p (l1 ++ x :: l2) = Some x.
Proof.
  intros H Hx. induction H as [|y l Hy _ IH]; cbn; [now rewrite Hx|]. now rewrite Hy.
Qed.

End RecordLists.

Lemma set_content_first (id content : string) (l1 l2 : list Records.note) (n : Records.note) :
  Forall (fun m => String.eqb (Records.note_id m) id = false) l1 ->
  String.eqb (Records.note_id n) id = true ->
  Records.set_content id content (l1 ++ n :: l2)
  = l1 ++ Records.Note (Records.note_id n) content :: l2.
Proof.
  intros H Hn. induction H as [|m l Hm _ IH]; cbn; [now rewrite Hn|].
  now rewrite Hm, IH.
Qed.

Lemma notes_of_written (user : string) (l : list Records.note)
    (all : gmap string (list Records.note)) (p : Records.data_file Records.password_entry)
    (u : string) :
  Records.notes_of u (Records.Db (Records.writeData (<[user := l]> all)) p)
  = if decide (user = u) then l else Records.of_user all u.
Proof.
  unfold Records.notes_of, Records.of_user. cbn.
  destruct (decide (user = u)) as [<-|Hne].
  - now rewrite lookup_insert_eq.
  - now rewrite lookup_insert_ne.
Qed.

Lemma entries_of_written (user : string) (l : list Records.password_entry)
    (all : gmap string (list Records.password_entry)) (f : Records.data_file Records.note)
    (u : string) :
  Records.entries_of u (Records.Db f (Records.writeData (<[user := l]> all)))
  = if decide (user = u) then l else Records.of_user all u.
Proof.
  unfold Records.entries_of, Records.of_user. cbn.
  destruct (decide (user = u)) as [<-|Hne].
  - now rewrite lookup_insert_eq.
  - now rewrite lookup_insert_ne.
Qed.

Lemma notes_get_reads (user : string) (x : Records.db) :
  Records.notes_get user x
  = (ok_json (Object [("notes", Array (map Records.note_json (Records.notes_of user x)))]),
     x).
Proof. reflexivity. Qed.

Lemma passwords_get_reads (user : string) (x : Records.db) :
  Records.passwords_get user x
  = (ok_json (Object [("passwords",
                       Array (map Records.entry_json (Records.entries_of user x)))]),
     x).
Proof. reflexivity. Qed.

(** X10.  For a request the gateway lets through as [id], POST /notes with a
    string [content] answers with the new note, whose id is the time of the
    request in decimal, and appends it to the notes of [id]: a GET /notes
    that follows returns the notes there were, in order, and the new one
    last.  A body whose [content] is no string (or is missing) is answered
    400 and leaves the state as it is. *)
Theorem note_created_then_read
    (env : environment) (bcrypt_compare : value -> option bool)
    (st : server Records.db) (req req' : request) (id : string) (now now' : Z) :
  authenticateToken req st = Authenticated id ->
  authenticateToken req' st = Authenticated id ->
  let out := handle env (Records.callbacks now) bcrypt_compare POST_notes req st in
  let before := Records.notes_of id (data st) in
  (forall content, property (body req) "content" = Str content ->
     let entry := Records.Note (pretty now) content in
     fst out = ok_json (Object [("note", Records.note_json entry)])
     /\ Records.notes_of id (data (snd out)) = before ++ [entry]
     /\ handle env (Records.callbacks now') bcrypt_compare GET_notes req' (snd out)
        = (ok_json (Object [("notes", Array (map Records.note_json (before ++ [entry])))]),
           snd out))
  /\ ((forall content, property (body req) "content" <> Str content) ->
      out = (status_message 400 "Content is required and must be a string.", st)).
Proof.
  intros Hid Hid' out before.
  assert (E : out = (let (res, x) := Records.notes_post now (body req) id (data st) in
                     (res, set_data x st))).
  { subst out. cbn [handle]. unfold behind_gateway. rewrite Hid. reflexivity. }
  split.
  - intros content Hc entry. rewrite E. unfold Records.notes_post. rewrite Hc.
    cbn [fst snd data set_data]. split; [reflexivity|].
    rewrite notes_of_written. destruct (decide (id = id)); [|congruence].
    split; [reflexivity|].
    cbn [handle]. unfold behind_gateway.
    rewrite (authenticate_same_users Records.db st _ req') by reflexivity.
    rewrite Hid'. unfold records. cbn [Records.callbacks]. rewrite notes_get_reads.
    cbn [data set_data]. rewrite notes_of_written.
    destruct (decide (id = id)); [|congruence].
    unfold set_data. cbn. reflexivity.
  - intros Hn. rewrite E. unfold Records.notes_post.
    destruct (property (body req) "content") as [| | | |c| |] eqn:P;
      try (now destruct st); exfalso; now apply (Hn c).
Qed.

Lemma note_created_then_read_witness :
  let st := logged_in_records in
  let req := json_request "user_2_6_4_8" "" (Object [("content", Str "milk")]) in
  let out := handle default_env (Records.callbacks 1700000000000) sample_bcrypt
                    POST_notes req st in
  authenticateToken req st = Authenticated "user_2_6_4_8"
  /\ Records.notes_of "user_2_6_4_8" (data (snd out))
     = [Records.Note "1700000000000" "milk"].
Proof.
  intros st req out.
  split; [reflexivity|].
  exact (proj1 (proj2 (proj1 (note_created_then_read default_env sample_bcrypt st req req
                                "user_2_6_4_8" 1700000000000 0 eq_refl eq_refl)
                         "milk" eq_refl))).
Defined.

Lemma differs_eqb_false {A : Type} (key : A -> string) (id : string) (l : list A) :
  Forall (fun m => key m <> id) l -> Forall (fun m => String.eqb (key m) id = false) l.
Proof.
  intros H. eapply Forall_impl; [exact H|]. intros m Hm. now apply String.eqb_neq.
Qed.

(** X11.  DELETE /notes/:id and DELETE /passwords/:id take out one entry, the
    first of the caller's list that has the id, and keep the others in their
    order, later entries of the same id included; when the caller has no
    entry of that id the answer is 404 and the data files are as they
    were. *)
Theorem delete_removes_the_first_match (id user : string) (x : Records.db) :
  let notes := Records.notes_of user x in
  let entries := Records.entries_of user x in
  let outn := Records.notes_delete id user x in
  let oute := Records.passwords_delete id user x in
  (Forall (fun n => Records.note_id n <> id) notes ->
     outn = (status_message 404 "Note not found.", x))
  /\ (forall l1 n l2,
        notes = l1 ++ n :: l2 ->
        Forall (fun m => Records.note_id m <> id) l1 -> Records.note_id n = id ->
        fst outn = ok_json (message "Note deleted.")
        /\ Records.notes_of user (snd outn) = l1 ++ l2)
  /\ (Forall (fun e => Records.entry_id e <> id) entries ->
      oute = (status_message 404 "Password not found.", x))
  /\ (forall l1 e l2,
        entries = l1 ++ e :: l2 ->
        Forall (fun m => Records.entry_id m <> id) l1 -> Records.entry_id e = id ->
        fst oute = ok_json (message "Password deleted.")
        /\ Records.entries_of user (snd oute) = l1 ++ l2).
Proof.
  intros notes entries outn oute. subst outn oute.
  unfold Records.notes_delete, Records.passwords_delete.
  fold (Records.notes_of user x) (Records.entries_of user x). fold notes entries.
  split; [|split; [|split]].
  - intros H. apply (differs_eqb_false Records.note_id) in H.
    unfold Records.findIndex. now rewrite findIndex_from_none.
  - intros l1 n l2 E H1 Hn. apply (differs_eqb_false Records.note_id) in H1.
    apply String.eqb_eq in Hn. rewrite E.
    pose proof (findIndex_from_first _ l1 l2 n 0 H1 Hn) as F.
    fold (Records.findIndex (fun n0 => String.eqb (Records.note_id n0) id) (l1 ++ n :: l2)) in F.
    destruct (Z.eqb_spec (Records.findIndex (fun n0 => String.eqb (Records.note_id n0) id)
                            (l1 ++ n :: l2)) (-1)) as [C|_]; [lia|].
    cbn [fst snd]. split; [reflexivity|].
    rewrite notes_of_written. destruct (decide (user = user)); [|congruence].
    now apply splice1_first.
  - intros H. apply (differs_eqb_false Records.entry_id) in H.
    unfold Records.findIndex. now rewrite findIndex_from_none.
  - intros l1 e l2 E H1 He. apply (differs_eqb_false Records.entry_id) in H1.
    apply String.eqb_eq in He. rewrite E.
    pose proof (findIndex_from_first _ l1 l2 e 0 H1 He) as F.
    fold (Records.findIndex (fun e0 => String.eqb (Records.entry_id e0) id) (l1 ++ e :: l2)) in F.
    destruct (Z.eqb_spec (Records.findIndex (fun e0 => String.eqb (Records.entry_id e0) id)
                            (l1 ++ e :: l2)) (-1)) as [C|_]; [lia|].
    cbn [fst snd]. split; [reflexivity|].
    rewrite entries_of_written. destruct (decide (user = user)); [|congruence].
    now apply splice1_first.
Qed.

Lemma delete_removes_the_first_match_witness :
  let twins := [Records.Note "17" "a"; Records.Note "42" "b"; Records.Note "42" "c"] in
  let x := Records.Db (Records.Holds {["u" := twins]}) Records.Absent in
  Records.notes_of "u" x = twins
  /\ Records.notes_of "u" (snd (Records.notes_delete "42" "u" x))
     = [Records.Note "17" "a"; Records.Note "42" "c"].
Proof.
  intros twins x. split; [reflexivity|].
  refine (proj2 (proj1 (proj2 (delete_removes_the_first_match "42" "u" x))
                   [Records.Note "17" "a"] (Records.Note "42" "b") [Records.Note "42" "c"]
                   eq_refl _ eq_refl)).
  repeat constructor. discriminate.
Defined.

(** X12.  PUT /notes/:id with a string [content] rewrites the content of one
    note, the first of the caller's list that has the id, and answers with
    it; ids, order and the other notes stay as they are.  With no note of
    that id the answer is 404, and with a [content] that is no string it is
    400 whether the note exists or not; the data files are untouched in both
    cases. *)
Theorem put_rewrites_the_first_match (id user : string) (b : value) (x : Records.db) :
  let notes := Records.notes_of user x in
  let out := Records.notes_put id b user x in
  ((forall content, property b "content" <> Str content) ->
     out = (status_message 400 "Content is required and must be a string.", x))
  /\ (forall content, property b "content" = Str content ->
      (Forall (fun n => Records.note_id n <> id) notes ->
         out = (status_message 404 "Note not found.", x))
      /\ (forall l1 n l2,
            notes = l1 ++ n :: l2 ->
            Forall (fun m => Records.note_id m <> id) l1 -> Records.note_id n = id ->
            fst out = ok_json (Object [("note", Records.note_json (Records.Note id content))])
            /\ Records.notes_of user (snd out) = l1 ++ Records.Note id content :: l2)).
Proof.
  intros notes out. subst out. unfold Records.notes_put.
  fold (Records.notes_of user x). fold notes. split.
  - intros Hn. destruct (property b "content") as [| | | |c| |];
      try reflexivity. exfalso. now apply (Hn c).
  - intros content ->. split.
    + intros H. apply (differs_eqb_false Records.note_id) in H.
      now rewrite find_none.
    + intros l1 n l2 E H1 Hn. apply (differs_eqb_false Records.note_id) in H1.
      pose proof Hn as Hid. apply String.eqb_eq in Hn. rewrite E.
      rewrite (find_first _ l1 l2 n H1 Hn). cbn [fst snd]. rewrite Hid.
      split; [reflexivity|].
      rewrite notes_of_written. destruct (decide (user = user)); [|congruence].
      rewrite (set_content_first id content l1 l2 n H1 Hn). now rewrite Hid.
Qed.

Lemma put_rewrites_the_first_match_witness :
  let twins := [Records.Note "17" "a"; Records.Note "42" "b"; Records.Note "42" "c"] in
  let x := Records.Db (Records.Holds {["u" := twins]}) Records.Absent in
  let b := Object [("content", Str "new")] in
  Records.notes_of "u" (snd (Records.notes_put "42" b "u" x))
  = [Records.Note "17" "a"; Records.Note "42" "new"; Records.Note "42" "c"].
Proof.
  intros twins x b.
  refine (proj2 (proj2 (proj2 (put_rewrites_the_first_match "42" "u" b x) "new" eq_refl)
                   [Records.Note "17" "a"] (Records.Note "42" "b") [Records.Note "42" "c"]
                   eq_refl _ eq_refl)).
  repeat constructor. discriminate.
Defined.

Lemma set_content_ids (id content : string) (l : list Records.note) :
  map Records.note_id (Records.set_content id content l) = map Records.note_id l.
Proof.
  induction l as [|n l IH]; [reflexivity|]. cbn.
  destruct (String.eqb (Records.note_id n) id); cbn; [reflexivity | now rewrite IH].
Qed.

Lemma splice1_ids (idx : Z) (l : list Records.note) :
  map Records.note_id (Records.splice1 idx l)
  = delete (Z.to_nat idx) (map Records.note_id l).
Proof.
  unfold Records.splice1. generalize (Z.to_nat idx) as i.
  induction l as [|n l IH]; intros [|i]; cbn; try reflexivity. now rewrite IH.
Qed.

Lemma NoDup_delete_index {A : Type} (i : nat) (l : list A) :
  NoDup l -> NoDup (delete i l).
Proof. intros H. exact (sublist_NoDup _ _ H (sublist_delete l i)). Qed.

(** X13.  The id of a note is the time of its creation in decimal, and
    nothing checks it against the ids there are.  As long as the caller's
    ids are pairwise distinct they stay so under GET, PUT and DELETE, and
    under a POST whose time is the time of none of them; a POST at a time
    that is already the id of a note leaves two notes with one id. *)
Theorem note_ids_stay_distinct
    (now : Z) (r : route) (id : string) (b : value) (user : string) (x : Records.db) :
  r ∈ [GET_notes; POST_notes; PUT_notes; DELETE_notes] ->
  let ids (y : Records.db) := map Records.note_id (Records.notes_of user y) in
  let x' := snd (Records.callbacks now r id b user x) in
  (NoDup (ids x) ->
     (r = POST_notes -> forall t, pretty t ∈ ids x -> t <> now) ->
     NoDup (ids x'))
  /\ (r = POST_notes -> pretty now ∈ ids x ->
      forall content, property b "content" = Str content -> ~ NoDup (ids x')).
Proof.
  intros Hr ids x'. subst ids x'.
  rewrite !elem_of_cons, elem_of_nil in Hr.
  destruct Hr as [-> | [-> | [-> | [-> | []]]]]; cbn [Records.callbacks].
  - split; [auto | discriminate].
  - split.
    + intros N F. unfold Records.notes_post.
      destruct (property b "content") as [| | | |c| |]; try exact N.
      cbn [snd]. rewrite notes_of_written. destruct (decide (user = user)); [|congruence].
      fold (Records.notes_of user x). rewrite map_app. cbn [map Records.note_id].
      apply NoDup_app. split; [exact N|]. split; [|apply NoDup_singleton].
      intros i Hi ->%list_elem_of_singleton. now apply (F eq_refl now).
    + intros _ Hin content Hc. unfold Records.notes_post. rewrite Hc.
      cbn [snd]. rewrite notes_of_written. destruct (decide (user = user)); [|congruence].
      fold (Records.notes_of user x). rewrite map_app. cbn [map Records.note_id].
      intros N. apply NoDup_app in N as (_ & N & _).
      apply (N (pretty now) Hin). apply list_elem_of_here.
  - split; [|discriminate]. intros N _. unfold Records.notes_put.
    destruct (property b "content") as [| | | |c| |]; try exact N.
    fold (Records.notes_of user x).
    destruct (List.find _ _); [|exact N].
    cbn [snd]. rewrite notes_of_written. destruct (decide (user = user)); [|congruence].
    now rewrite set_content_ids.
  - split; [|discriminate]. intros N _. unfold Records.notes_delete.
    fold (Records.notes_of user x).
    destruct (_ =? -1); [exact N|].
    cbn [snd]. rewrite notes_of_written. destruct (decide (user = user)); [|congruence].
    rewrite splice1_ids. now apply NoDup_delete_index.
Qed.

Lemma note_ids_stay_distinct_witness :
  let x := Records.Db (Records.Holds {["u" := [Records.Note "1700000000000" "a"]]})
                      Records.Absent in
  let b := Object [("content", Str "b")] in
  POST_notes ∈ [GET_notes; POST_notes; PUT_notes; DELETE_notes]
  /\ NoDup (map Records.note_id
              (Records.notes_of "u" (snd (Records.callbacks 1700000000001 POST_notes "" b "u" x))))
  /\ ~ NoDup (map Records.note_id
                (Records.notes_of "u"
                   (snd (Records.callbacks 1700000000000 POST_notes "" b "u" x)))).
Proof.
  intros x b.
  assert (H : POST_notes ∈ [GET_notes; POST_notes; PUT_notes; DELETE_notes]).
  { rewrite !elem_of_cons. auto. }
  split; [exact H|]. split.
  - apply (proj1 (note_ids_stay_distinct 1700000000001 POST_notes "" b "u" x H)).
    + apply (bool_decide_unpack (NoDup ["1700000000000"])). vm_compute. exact I.
    + intros _ t Ht. apply list_elem_of_singleton in Ht.
      assert (E : pretty 1700000000000 = "1700000000000") by (vm_compute; reflexivity).
      cbn [Records.note_id] in Ht. rewrite <- E in Ht.
      apply (inj pretty) in Ht. lia.
  - apply (proj2 (note_ids_stay_distinct 1700000000000 POST_notes "" b "u" x H) eq_refl
             (list_elem_of_here _ _) "b" eq_refl).
Defined.

(** X14.  The seven callbacks of the record stores work on the caller's own
    list: whatever the route and the request, the notes and the password
    entries of every other identity read as before.  The notes routes never
    change an entry of passwords.json, the passwords routes never change a
    note, and the two GET routes leave both files as they are. *)
Theorem records_are_kept_apart
    (now : Z) (r : route) (id : string) (b : value) (user : string) (x : Records.db) :
  let x' := snd (Records.callbacks now r id b user x) in
  (forall u, u <> user ->
     Records.notes_of u x' = Records.notes_of u x
     /\ Records.entries_of u x' = Records.entries_of u x)
  /\ (r ∈ [GET_notes; POST_notes; PUT_notes; DELETE_notes] ->
      forall u, Records.entries_of u x' = Records.entries_of u x)
  /\ (r ∈ [GET_passwords; POST_passwords; DELETE_passwords] ->
      forall u, Records.notes_of u x' = Records.notes_of u x)
  /\ (r = GET_notes \/ r = GET_passwords -> x' = x).
Proof.
  intros x'. subst x'.
  assert (W : forall l u, u <> user ->
                Records.notes_of u (Records.Db (Records.writeData
                                      (<[user := l]> (Records.readData (Records.NOTES_FILE x))))
                                      (Records.PASSWORDS_FILE x))
                = Records.notes_of u x).
  { intros l u Hu. rewrite notes_of_written. destruct (decide (user = u)); [congruence|].
    reflexivity. }
  assert (V : forall l u, u <> user ->
                Records.entries_of u (Records.Db (Records.NOTES_FILE x)
                                        (Records.writeData
                                           (<[user := l]>
                                              (Records.readData (Records.PASSWORDS_FILE x)))))
                = Records.entries_of u x).
  { intros l u Hu. rewrite entries_of_written. destruct (decide (user = u)); [congruence|].
    reflexivity. }
  destruct r; cbn [Records.callbacks snd];
    unfold Records.notes_get, Records.notes_post, Records.notes_put, Records.notes_delete,
           Records.passwords_get, Records.passwords_post, Records.passwords_delete;
    repeat match goal with
           | |- context [match property ?v ?k with _ => _ end] => destruct (property v k)
           | |- context [match List.find ?p ?l with _ => _ end] => destruct (List.find p l)
           | |- context [if ?c then _ else _] => destruct c
           end;
    cbn [snd];
    (split; [intros u Hu; rewrite ?W, ?V by exact Hu; split; reflexivity|]);
    (split; [intros Hr u; try reflexivity;
             exfalso; revert Hr; rewrite ?elem_of_cons, ?elem_of_nil; intuition congruence|]);
    (split; [intros Hr u; try reflexivity;
             exfalso; revert Hr; rewrite ?elem_of_cons, ?elem_of_nil; intuition congruence|]);
    intros [H|H]; try discriminate H; try reflexivity; now destruct x.
Qed.

Lemma records_are_kept_apart_witness :
  let x := Records.Db (Records.Holds {["u" := [Records.Note "17" "a"]]})
                      (Records.Holds {["v" := [Records.PasswordEntry "3" (Str "bank") (Str "")
                                                 (Str "me") (Str "pw")]]}) in
  let x' := snd (Records.callbacks 18 POST_notes "" (Object [("content", Str "b")]) "v" x) in
  Records.notes_of "v" x' = [Records.Note "18" "b"]
  /\ Records.notes_of "u" x' = [Records.Note "17" "a"]
  /\ Records.entries_of "v" x' = Records.entries_of "v" x.
Proof.
  intros x x'.
  pose proof (records_are_kept_apart 18 POST_notes "" (Object [("content", Str "b")]) "v" x)
    as (O & E & _).
  split; [reflexivity|]. split.
  - destruct (O "u") as [N _]; [discriminate|]. fold x' in N. rewrite N. reflexivity.
  - apply E. rewrite !elem_of_cons. auto.
Defined.

(** X15.  POST /passwords wants [name], [username] and [password] to be
    truthy: with one of them missing, empty, 0, false or null the answer is
    400 and the data files are as they were.  Otherwise the entry is appended
    to the caller's list with the time as its id, the three fields as they
    came and [link] as it came too, or the empty string when it is missing
    or falsy; a GET /passwords that follows returns the list there was and
    the new entry last. *)
Theorem password_entry_created_then_read
    (now : Z) (b : value) (user : string) (x : Records.db) :
  let out := Records.passwords_post now b user x in
  let before := Records.entries_of user x in
  let required := truthy (property b "name") && truthy (property b "username")
                  && truthy (property b "password") in
  (required = false -> out = (status_message 400 "Missing required fields.", x))
  /\ (required = true ->
      let link := if truthy (property b "link") then property b "link" else Str "" in
      let entry := Records.PasswordEntry (pretty now) (property b "name") link
                     (property b "username") (property b "password") in
      fst out = ok_json (Object [("password", Records.entry_json entry)])
      /\ Records.entries_of user (snd out) = before ++ [entry]
      /\ Records.notes_of user (snd out) = Records.notes_of user x
      /\ Records.passwords_get user (snd out)
         = (ok_json (Object [("passwords",
                              Array (map Records.entry_json (before ++ [entry])))]),
            snd out)).
Proof.
  intros out before required. subst out before required.
  unfold Records.passwords_post.
  destruct (truthy (property b "name")), (truthy (property b "username")),
           (truthy (property b "password")); cbn [andb negb orb];
    (split; [intros H; try discriminate H; reflexivity|]);
    intros H; try discriminate H.
  cbn [fst snd]. split; [reflexivity|].
  assert (E : Records.entries_of user
                (Records.Db (Records.NOTES_FILE x)
                   (Records.writeData
                      (<[user := Records.of_user (Records.readData (Records.PASSWORDS_FILE x))
                                   user
                                 ++ [Records.PasswordEntry (pretty now) (property b "name")
                                       (if truthy (property b "link")
                                        then property b "link" else Str "")
                                       (property b "username") (property b "password")]]>
                         (Records.readData (Records.PASSWORDS_FILE x)))))
              = Records.entries_of user x
                ++ [Records.PasswordEntry (pretty now) (property b "name")
                      (if truthy (property b "link") then property b "link" else Str "")
                      (property b "username") (property b "password")]).
  { rewrite entries_of_written. now destruct (decide (user = user)). }
  split; [exact E|]. split; [reflexivity|].
  rewrite passwords_get_reads. now rewrite E.
Qed.

Lemma password_entry_created_then_read_witness :
  let b := Object [("name", Str "bank"); ("username", Str "me"); ("password", Str "")] in
  let b' := Object [("name", Str "bank"); ("username", Str "me"); ("password", Str "pw")] in
  let x := Records.Db Records.Absent Records.Unreadable in
  Records.passwords_post 7 b "u" x = (status_message 400 "Missing required fields.", x)
  /\ Records.entries_of "u" (snd (Records.passwords_post 7 b' "u" x))
     = [Records.PasswordEntry "7" (Str "bank") (Str "") (Str "me") (Str "pw")].
Proof.
  intros b b' x. split.
  - exact (proj1 (password_entry_created_then_read 7 b "u" x) eq_refl).
  - exact (proj1 (proj2 (proj2 (password_entry_created_then_read 7 b' "u" x) eq_refl))).
Defined.

(** * The page *)

(** ** The login grid *)

Lemma handleImageClick_length (i : Z) (c : list Z) :
  (length c <= 4)%nat -> (length (Dashboard.handleImageClick i c) <= 4)%nat.
Proof.
  intros H. unfold Dashboard.handleImageClick.
  destruct (length c <? 4)%nat eqn:E; [|exact H].
  apply Nat.ltb_lt in E. rewrite length_app. cbn [length]. lia.
Qed.

Lemma removelast_shorter (c : list Z) : (length (removelast c) <= length c)%nat.
Proof.
  induction c as [|x [|y c] IH]; cbn [removelast length] in *; lia.
Qed.

Lemma handleLogin_cases (c : list Z) :
  (c = [] /\ Dashboard.handleLogin c = ([], None))
  \/ (c <> [] /\ Dashboard.handleLogin c = ([], Some (Dashboard.login_body c))).
Proof.
  destruct c as [|x c]; [left | right]; split; try reflexivity; discriminate.
Qed.

Lemma step_bounded (e : Dashboard.event) (c : list Z) :
  (length c <= 4)%nat ->
  (length (fst (Dashboard.step e c)) <= 4)%nat
  /\ (snd (Dashboard.step e c) = None
      \/ exists cells, snd (Dashboard.step e c) = Some (Dashboard.login_body cells)
                       /\ (1 <= length cells <= 4)%nat).
Proof.
  intros H.
  assert (L : forall c', (length c' <= 4)%nat ->
              (length (fst (Dashboard.handleLogin c')) <= 4)%nat
              /\ (snd (Dashboard.handleLogin c') = None
                  \/ exists cells,
                       snd (Dashboard.handleLogin c') = Some (Dashboard.login_body cells)
                       /\ (1 <= length cells <= 4)%nat)).
  { intros c' H'. destruct (handleLogin_cases c') as [[-> ->]|[N ->]]; cbn [fst snd length].
    - split; [lia | now left].
    - split; [lia|]. right. exists c'. split; [reflexivity|].
      destruct c'; [congruence | cbn [length] in *; lia]. }
  destruct e as [i|key| |]; cbn [Dashboard.step].
  - cbn [fst snd]. split; [now apply handleImageClick_length | now left].
  - set (c1 := if String.leb "1" key && String.leb key "9"
               then Dashboard.handleImageClick (Dashboard.parse_digits key 0 - 1) c
               else c).
    assert (H1 : (length c1 <= 4)%nat).
    { subst c1. destruct (String.leb "1" key && String.leb key "9");
        [now apply handleImageClick_length | exact H]. }
    destruct (String.eqb key "Enter").
    + destruct (L c1 H1) as [B S]. destruct (Dashboard.handleLogin c1) as [c2 sent].
      cbn [fst snd] in *. split; [|exact S].
      destruct (String.eqb key "Backspace"); [|exact B].
      pose proof (removelast_shorter c2). lia.
    + cbn [fst snd]. split; [|now left].
      destruct (String.eqb key "Backspace"); [|exact H1].
      pose proof (removelast_shorter c1). lia.
  - cbn [fst snd length]. split; [lia | now left].
  - now apply L.
Qed.

Lemma play_cons (e : Dashboard.event) (events : list Dashboard.event) (c : list Z) :
  Dashboard.play (e :: events) c
  = (fst (Dashboard.play events (fst (Dashboard.step e c))),
     match snd (Dashboard.step e c) with
     | Some b => b :: snd (Dashboard.play events (fst (Dashboard.step e c)))
     | None => snd (Dashboard.play events (fst (Dashboard.step e c)))
     end).
Proof.
  cbn [Dashboard.play]. destruct (Dashboard.step e c) as [c1 sent].
  cbn [fst snd]. now destruct (Dashboard.play events c1).
Qed.

Lemma play_app (events events' : list Dashboard.event) (c : list Z) :
  Dashboard.play (events ++ events') c
  = (fst (Dashboard.play events' (fst (Dashboard.play events c))),
     snd (Dashboard.play events c)
     ++ snd (Dashboard.play events' (fst (Dashboard.play events c)))).
Proof.
  revert c. induction events as [|e events IH]; intros c.
  - cbn [app Dashboard.play fst snd]. now destruct (Dashboard.play events' c).
  - rewrite <- app_comm_cons, !play_cons, IH. cbn [fst snd].
    now destruct (snd (Dashboard.step e c)).
Qed.

(** X16.  Whatever is clicked and typed on the login page, in any order,
    the sequence it holds never grows beyond four cells, and every body it
    posts to /login is [{ imageSequence }] with one to four numbers; so the
    server never answers such a request with 400, whatever its state. *)
Theorem login_page_posts_short_sequences
    (events : list Dashboard.event) (clickedSequence : list Z) :
  (length clickedSequence <= 4)%nat ->
  (length (fst (Dashboard.play events clickedSequence)) <= 4)%nat
  /\ Forall (fun b => exists cells,
                 b = Dashboard.login_body cells /\ (1 <= length cells <= 4)%nat)
            (snd (Dashboard.play events clickedSequence))
  /\ forall (env : environment) (store : Type) (st : server store) (req : request),
       body req ∈ snd (Dashboard.play events clickedSequence) ->
       status (fst (login env req st)) <> 400.
Proof.
  intros H.
  assert (P : (length (fst (Dashboard.play events clickedSequence)) <= 4)%nat
              /\ Forall (fun b => exists cells,
                             b = Dashboard.login_body cells
                             /\ (1 <= length cells <= 4)%nat)
                        (snd (Dashboard.play events clickedSequence))).
  { revert clickedSequence H. induction events as [|e events IH]; intros c H.
    - cbn [Dashboard.play fst snd]. split; [exact H | constructor].
    - rewrite play_cons. cbn [fst snd].
      destruct (step_bounded e c H) as [B S].
      destruct (IH _ B) as [B' F]. split; [exact B'|].
      destruct S as [->|(cells & -> & Hc)]; [exact F|].
      constructor; [|exact F]. now exists cells. }
  destruct P as [B F]. split; [exact B|]. split; [exact F|].
  intros env store st req Hin.
  rewrite Forall_forall in F. destruct (F _ Hin) as (cells & E & _).
  destruct (login_cases env store st req)
    as [(_ & S & _)|[(_ & _ & A & _)|[(_ & S & _)|(_ & S & _)]]];
    try (rewrite S; discriminate).
  rewrite E in A. discriminate A.
Qed.

Lemma login_page_posts_short_sequences_witness :
  let events := [Dashboard.Click 1; Dashboard.Click 5; Dashboard.Click 3; Dashboard.Click 7;
                 Dashboard.Click 0; Dashboard.LoginButton] in
  snd (Dashboard.play events []) = [Dashboard.login_body [1; 5; 3; 7]]
  /\ status (fst (login default_env
                    (Request "10.0.0.7" None None None (Dashboard.login_body [1; 5; 3; 7])
                       "" "" None) fresh)) <> 400.
Proof.
  intros events. split; [reflexivity|].
  assert (H : (length (@nil Z) <= 4)%nat) by (cbn [length]; lia).
  destruct (login_page_posts_short_sequences events [] H) as (_ & _ & S).
  apply S. cbn [body]. apply list_elem_of_In. left. reflexivity.
Defined.

Lemma digit_key (d : Z) (c : list Z) :
  1 <= d <= 9 ->
  Dashboard.step (Dashboard.Key (pretty d)) c = (Dashboard.handleImageClick (d - 1) c, None).
Proof.
  intros H.
  assert (E : d = 1 \/ d = 2 \/ d = 3 \/ d = 4 \/ d = 5 \/ d = 6 \/ d = 7 \/ d = 8 \/ d = 9)
    by lia.
  repeat (destruct E as [->|E]; [vm_compute; reflexivity|]).
  subst d. vm_compute. reflexivity.
Qed.

Lemma enter_key (c : list Z) :
  Dashboard.step (Dashboard.Key "Enter") c = Dashboard.handleLogin c.
Proof.
  unfold Dashboard.step.
  change (String.leb "1" "Enter" && String.leb "Enter" "9") with false.
  change (String.eqb "Enter" "Enter") with true.
  change (String.eqb "Enter" "Backspace") with false.
  cbv iota. now destruct (Dashboard.handleLogin c).
Qed.

Lemma typed_digits (ds : list Z) (c : list Z) :
  Forall (fun d => 1 <= d <= 9) ds ->
  Dashboard.play (map (fun d => Dashboard.Key (pretty d)) ds) c
  = (c ++ map (fun d => d - 1) (firstn (4 - length c) ds), []).
Proof.
  intros F. revert c. induction F as [|d ds Hd _ IH]; intros c.
  - cbn [map Dashboard.play]. now rewrite firstn_nil, app_nil_r.
  - cbn [map]. rewrite play_cons, digit_key by exact Hd. cbn [fst snd].
    rewrite IH. cbn [fst snd]. f_equal.
    unfold Dashboard.handleImageClick.
    destruct (length c <? 4)%nat eqn:E.
    + apply Nat.ltb_lt in E. rewrite length_app. cbn [length].
      replace (4 - length c)%nat with (S (4 - (length c + 1)))%nat by lia.
      cbn [firstn map]. now rewrite <- app_assoc.
    + apply Nat.ltb_ge in E.
      replace (4 - length c)%nat with 0%nat by lia.
      cbn [firstn map]. reflexivity.
Qed.

(** X17.  Typing digits from 1 to 9 and then Enter on the login page posts
    the first four digits typed, as they were typed (the key [d] selects the
    cell [d - 1], and the cells are sent plus one); further digits are
    dropped.  So from an address below the ceiling the server answers 200
    with the token exactly when the first four digits typed are 2 6 4 8 and
    there are four of them, and 401 otherwise. *)
Theorem typed_digits_log_in
    (env : environment) (store : Type) (st : server store) (k : string) (ds : list Z) :
  Forall (fun d => 1 <= d <= 9) ds ->
  ds <> [] ->
  count (imageLoginAttempts st) k < MAX_IMAGE_LOGIN_ATTEMPTS env ->
  let keys := map (fun d => Dashboard.Key (pretty d)) ds ++ [Dashboard.Key "Enter"] in
  let b := Object [("imageSequence", Array (map Number (firstn 4 ds)))] in
  let res := fst (login env (Request k None None None b "" "" None) st) in
  Dashboard.play keys [] = ([], [b])
  /\ (firstn 4 ds = [2; 6; 4; 8] ->
      res = ok_json (Object [("message", Str "Login successful!");
                             ("token", Str "user_2_6_4_8")]))
  /\ (firstn 4 ds <> [2; 6; 4; 8] -> res = status_message 401 "Incorrect image sequence.").
Proof.
  intros F N Hc keys b res. split; [|split].
  - subst keys. rewrite play_app, typed_digits by exact F. cbn [fst snd app length].
    change (4 - 0)%nat with 4%nat.
    assert (E : Dashboard.step (Dashboard.Key "Enter") (map (fun d => d - 1) (firstn 4 ds))
                = ([], Some b)).
    { rewrite enter_key.
      destruct (handleLogin_cases (map (fun d => d - 1) (firstn 4 ds))) as [[E _]|[_ ->]].
      - destruct ds; [congruence | discriminate E].
      - subst b. unfold Dashboard.login_body. rewrite map_map.
        assert (M : map (fun x => Number (x - 1 + 1)) (firstn 4 ds)
                    = map Number (firstn 4 ds)).
        { apply map_ext. intros a. f_equal. lia. }
        now rewrite M. }
    unfold Dashboard.play. rewrite E. reflexivity.
  - intros E. subst res.
    rewrite (login_accepted env store st (Request k None None None b "" "" None)
               (map Number (firstn 4 ds)) Hc eq_refl).
    + rewrite E. reflexivity.
    + rewrite E. reflexivity.
  - intros E. subst res.
    rewrite (login_refused env store st (Request k None None None b "" "" None)
               (map Number (firstn 4 ds)) Hc eq_refl);
      [reflexivity|].
    destruct (sequence_matches CORRECT_IMAGE_SEQUENCE (map Number (firstn 4 ds))) eqn:M;
      [|reflexivity].
    apply (sequence_matches_spec [2; 6; 4; 8]) in M.
    exfalso. apply E. revert M. generalize (firstn 4 ds). intros l M.
    change (map Number l = map Number [2; 6; 4; 8]) in M.
    revert M. generalize [2; 6; 4; 8]. induction l as [|x l IH]; intros [|y l'] M;
      try discriminate M; [reflexivity|].
    cbn [map] in M. injection M as -> M. f_equal. now apply IH.
Qed.

Lemma typed_digits_log_in_witness :
  Dashboard.play (map (fun d => Dashboard.Key (pretty d)) [2; 6; 4; 8; 9]
                  ++ [Dashboard.Key "Enter"]) []
  = ([], [Object [("imageSequence", Array (map Number [2; 6; 4; 8]))]])
  /\ issued_token (fst (login default_env (login_request "10.0.0.7" [2; 6; 4; 8]) fresh))
     = Some "user_2_6_4_8".
Proof.
  assert (F : Forall (fun d => 1 <= d <= 9) [2; 6; 4; 8; 9]) by (repeat constructor; lia).
  assert (N : [2; 6; 4; 8; 9] <> []) by discriminate.
  assert (Hc : count (imageLoginAttempts fresh) "10.0.0.7"
               < MAX_IMAGE_LOGIN_ATTEMPTS default_env) by (vm_compute; reflexivity).
  destruct (typed_digits_log_in default_env unit fresh "10.0.0.7" [2; 6; 4; 8; 9] F N Hc)
    as (P & A & _).
  split; [exact P|].
  unfold login_request. cbn [firstn] in A. rewrite (A eq_refl). reflexivity.
Defined.

(** ** The notes of the page and of the server *)

Lemma filter_without (id : string) (l : list Records.note) :
  Forall (fun m => String.eqb (Records.note_id m) id = false) l ->
  List.filter (fun n => negb (String.eqb (Records.note_id n) id)) l = l.
Proof.
  intros H. induction H as [|m l Hm _ IH]; cbn [List.filter]; [reflexivity|].
  now rewrite Hm, IH.
Qed.

Lemma with_content_without (id content : string) (l : list Records.note) :
  Forall (fun m => String.eqb (Records.note_id m) id = false) l ->
  Dashboard.with_content id content l = l.
Proof.
  unfold Dashboard.with_content.
  intros H. induction H as [|m l Hm _ IH]; cbn [map]; [reflexivity|].
  now rewrite Hm, IH.
Qed.

(** In a list of distinct ids the notes after the first match do not match. *)
Lemma distinct_after_first (id : string) (l1 l2 : list Records.note) (n : Records.note) :
  NoDup (map Records.note_id (l1 ++ n :: l2)) ->
  String.eqb (Records.note_id n) id = true ->
  Forall (fun m => String.eqb (Records.note_id m) id = false) l2.
Proof.
  intros H Hn. apply String.eqb_eq in Hn.
  rewrite map_app in H. cbn [map] in H.
  apply NoDup_app in H as (_ & _ & H). apply NoDup_cons in H as [H _].
  apply Forall_forall. intros m Hm. apply String.eqb_neq. intros E.
  apply H. rewrite Hn, <- E. apply list_elem_of_fmap. now exists m.
Qed.

Lemma notes_post_string (now : Z) (content user : string) (x : Records.db) :
  Records.notes_post now (Object [("content", Str content)]) user x
  = (ok_json (Object [("note", Records.note_json (Records.Note (pretty now) content))]),
     Records.Db
       (Records.writeData
          (<[user := Records.notes_of user x ++ [Records.Note (pretty now) content]]>
             (Records.readData (Records.NOTES_FILE x))))
       (Records.PASSWORDS_FILE x)).
Proof. reflexivity. Qed.

Lemma notes_put_string (id content user : string) (x : Records.db) :
  Records.notes_put id (Object [("content", Str content)]) user x
  = match List.find (fun n => String.eqb (Records.note_id n) id) (Records.notes_of user x) with
    | None => (status_message 404 "Note not found.", x)
    | Some n =>
        (ok_json (Object [("note", Records.note_json (Records.Note (Records.note_id n) content))]),
         Records.Db
           (Records.writeData
              (<[user := Records.set_content id content (Records.notes_of user x)]>
                 (Records.readData (Records.NOTES_FILE x))))
           (Records.PASSWORDS_FILE x))
    end.
Proof. reflexivity. Qed.

Lemma notes_delete_index (id user : string) (x : Records.db) :
  Records.notes_delete id user x
  = let idx := Records.findIndex (fun n => String.eqb (Records.note_id n) id)
                 (Records.notes_of user x) in
    if idx =? -1 then (status_message 404 "Note not found.", x)
    else (ok_json (message "Note deleted."),
          Records.Db
            (Records.writeData
               (<[user := Records.splice1 idx (Records.notes_of user x)]>
                  (Records.readData (Records.NOTES_FILE x))))
            (Records.PASSWORDS_FILE x)).
Proof. reflexivity. Qed.

(** X18.  The page keeps its own copy of the caller's notes and changes it
    by itself on each action: it appends the note the server returned, it
    rewrites the content of every note of the id (going back to what the
    first of them held when the server refuses), and it drops every note of
    the id (going back to the list it had when the server refuses).  The
    server changes only the first note of the id.  When the ids of the
    caller's notes are pairwise distinct and the page's copy is the server's
    list, it still is after each of the three actions, the refused ones
    included. *)
Theorem page_notes_follow_the_server
    (now : Z) (id content user : string) (x : Records.db) :
  let notes := Records.notes_of user x in
  let posted := Records.notes_post now (Object [("content", Str "")]) user x in
  let put := Records.notes_put id (Object [("content", Str content)]) user x in
  let deleted := Records.notes_delete id user x in
  NoDup (map Records.note_id notes) ->
  Dashboard.addNote (fst posted) notes = Records.notes_of user (snd posted)
  /\ Dashboard.handleNoteChange id content (fst put) notes = Records.notes_of user (snd put)
  /\ Dashboard.deleteNote id (fst deleted) notes = Records.notes_of user (snd deleted).
Proof.
  intros notes posted put deleted D. split; [|split].
  - subst posted. rewrite notes_post_string. cbn [fst snd]. rewrite notes_of_written.
    destruct (decide (user = user)); [|congruence]. reflexivity.
  - subst put. rewrite notes_put_string. fold notes.
    destruct (first_match (fun n => String.eqb (Records.note_id n) id) notes)
      as [H|(l1 & n & l2 & E & H1 & Hn)].
    + rewrite (find_none _ _ H). cbn [fst snd]. fold notes.
      unfold Dashboard.handleNoteChange. rewrite (find_none _ _ H).
      change (Dashboard.ok (status_message 404 "Note not found.")) with false.
      cbv iota. now apply with_content_without.
    + assert (H2 := D). rewrite E in H2. apply (distinct_after_first id) in H2; [|exact Hn].
      rewrite E, (find_first _ l1 l2 n H1 Hn). cbn [fst snd].
      rewrite notes_of_written. destruct (decide (user = user)); [|congruence].
      rewrite (set_content_first id content l1 l2 n H1 Hn).
      unfold Dashboard.handleNoteChange.
      change (Dashboard.ok (ok_json ?v)) with true. cbv iota.
      unfold Dashboard.with_content. rewrite map_app. cbn [map]. rewrite Hn.
      fold (Dashboard.with_content id content l1). fold (Dashboard.with_content id content l2).
      now rewrite (with_content_without _ _ _ H1), (with_content_without _ _ _ H2).
  - subst deleted. rewrite notes_delete_index. fold notes. cbv zeta.
    destruct (first_match (fun n => String.eqb (Records.note_id n) id) notes)
      as [H|(l1 & n & l2 & E & H1 & Hn)].
    + unfold Records.findIndex. rewrite (findIndex_from_none _ _ 0 H).
      change (-1 =? -1) with true. cbv iota. cbn [fst snd].
      fold notes. reflexivity.
    + assert (H2 := D). rewrite E in H2. apply (distinct_after_first id) in H2; [|exact Hn].
      rewrite E. rewrite (splice1_first _ l1 l2 n H1 Hn).
      unfold Records.findIndex.
      rewrite (findIndex_from_first _ l1 l2 n 0 H1 Hn).
      destruct (0 + Z.of_nat (length l1) =? -1) eqn:Z; [apply Z.eqb_eq in Z; lia|].
      cbn [fst snd]. rewrite notes_of_written.
      destruct (decide (user = user)); [|congruence].
      unfold Dashboard.deleteNote.
      change (Dashboard.ok (ok_json ?v)) with true. cbv iota.
      rewrite List.filter_app. cbn [List.filter]. rewrite Hn. cbn [negb].
      now rewrite (filter_without _ _ H1), (filter_without _ _ H2).
Qed.

Lemma page_notes_follow_the_server_witness :
  let x := Records.Db (Records.Holds {["u" := [Records.Note "1" "a"; Records.Note "2" "b"]]})
                      Records.Absent in
  let notes := [Records.Note "1" "a"; Records.Note "2" "b"] in
  Dashboard.addNote (fst (Records.notes_post 3 (Object [("content", Str "")]) "u" x)) notes
  = Records.notes_of "u" (snd (Records.notes_post 3 (Object [("content", Str "")]) "u" x))
  /\ Dashboard.handleNoteChange "2" "c"
       (fst (Records.notes_put "2" (Object [("content", Str "c")]) "u" x)) notes
     = Records.notes_of "u" (snd (Records.notes_put "2" (Object [("content", Str "c")]) "u" x))
  /\ Dashboard.deleteNote "7" (fst (Records.notes_delete "7" "u" x)) notes
     = Records.notes_of "u" (snd (Records.notes_delete "7" "u" x)).
Proof.
  intros x notes.
  assert (D : NoDup (map Records.note_id (Records.notes_of "u" x))).
  { apply (bool_decide_unpack _). vm_compute. exact I. }
  pose proof (page_notes_follow_the_server 3 "2" "c" "u" x D) as (A & B & _).
  pose proof (page_notes_follow_the_server 3 "7" "c" "u" x D) as (_ & _ & C).
  split; [exact A|]. split; [exact B | exact C].
Defined.

(** ** The password section of the page *)

(** X19.  The page keeps its own password list, apart from the server's.
    [addPassword] does nothing while the name, the username or the password
    of the form is empty (the link may be); otherwise it appends the form with
    the time as id and clears the form.  [deletePassword] drops every entry of
    the id, so it undoes the [addPassword] made at that time when no older
    entry has the time as its id. *)
Theorem saved_password_added_then_deleted
    (now : Z) (newPassword : Dashboard.form) (passwords : list Dashboard.saved_password) :
  let out := Dashboard.addPassword now newPassword passwords in
  let complete := Dashboard.form_name newPassword <> ""
                  /\ Dashboard.form_username newPassword <> ""
                  /\ Dashboard.form_password newPassword <> "" in
  (~ complete -> out = (passwords, newPassword))
  /\ (complete ->
      fst out = passwords
                ++ [Dashboard.SavedPassword
                      (Dashboard.form_name newPassword) (Dashboard.form_link newPassword)
                      (Dashboard.form_username newPassword)
                      (Dashboard.form_password newPassword) now]
      /\ snd out = Dashboard.empty_form
      /\ Forall (fun p => Dashboard.saved_id p <> now) (Dashboard.deletePassword now (fst out))
      /\ (Forall (fun p => Dashboard.saved_id p <> now) passwords ->
          Dashboard.deletePassword now (fst out) = passwords)).
Proof.
  intros out complete. subst out complete. unfold Dashboard.addPassword.
  destruct (String.eqb_spec (Dashboard.form_name newPassword) "") as [E1|E1];
    [split; [reflexivity | tauto]|].
  destruct (String.eqb_spec (Dashboard.form_username newPassword) "") as [E2|E2];
    [split; [reflexivity | tauto]|].
  destruct (String.eqb_spec (Dashboard.form_password newPassword) "") as [E3|E3];
    [split; [reflexivity | tauto]|].
  cbn [negb andb fst snd]. split; [tauto|]. intros _.
  split; [reflexivity|]. split; [reflexivity|].
  unfold Dashboard.deletePassword. split.
  - apply Forall_forall. intros p Hp. apply list_elem_of_In, filter_In in Hp as [_ Hp].
    apply negb_true_iff, Z.eqb_neq in Hp. exact Hp.
  - intros F. rewrite List.filter_app. cbn [List.filter Dashboard.saved_id].
    rewrite Z.eqb_refl. cbn [negb]. rewrite app_nil_r.
    induction F as [|p l Hp _ IH]; cbn [List.filter]; [reflexivity|].
    apply Z.eqb_neq in Hp. now rewrite Hp, IH.
Qed.

Lemma saved_password_added_then_deleted_witness :
  let f := Dashboard.Form "bank" "" "me" "pw" in
  let l := [Dashboard.SavedPassword "mail" "m.example" "me" "x" 5] in
  Dashboard.addPassword 7 (Dashboard.Form "bank" "" "me" "") l
  = (l, Dashboard.Form "bank" "" "me" "")
  /\ Dashboard.deletePassword 7 (fst (Dashboard.addPassword 7 f l)) = l.
Proof.
  intros f l. split.
  - apply (saved_password_added_then_deleted 7 (Dashboard.Form "bank" "" "me" "") l).
    cbn. intros (_ & _ & H). now apply H.
  - apply (saved_password_added_then_deleted 7 f l).
    + cbn. repeat split; discriminate.
    + repeat constructor. cbn. lia.
Defined.

(** X20.  The password section sends nothing for an empty input.  For any
    other input it posts [{ password }] to /admin/check-password with the
    token of [localStorage] in the header, the empty string when there is
    none, and clears the input once the answer is in.  The server never
    answers it with 400; a page without a token gets 401; and a locked section
    is unlocked by the answer exactly when the token it holds is registered,
    the counter of that token is below the admin ceiling and the comparison
    says the input is the admin password. *)
Theorem password_section_unlocks
    (env : environment) (store : Type)
    (record_store : route -> string -> value -> string -> store -> response * store)
    (bcrypt_compare : value -> option bool)
    (st : server store) (k : string) (authToken : option string) (l : Dashboard.lock) :
  (Dashboard.passwordInput l = "" -> Dashboard.unlock_request k authToken l = None)
  /\ (Dashboard.passwordInput l <> "" ->
      exists req,
        Dashboard.unlock_request k authToken l = Some req
        /\ let res := fst (handle env record_store bcrypt_compare
                             POST_admin_check_password req st) in
           let l' := Dashboard.handleUnlock res l in
           status res <> 400
           /\ Dashboard.passwordInput l' = ""
           /\ (authToken = None -> res = status_message 401 "Authentication token required")
           /\ (Dashboard.isUnlocked l = false ->
               Dashboard.isUnlocked l' = true
               <-> exists t, authToken = Some t /\ t <> ""
                     /\ t ∈ authenticatedUsers st
                     /\ count (adminPasswordAttempts st) t < MAX_ADMIN_PASSWORD_ATTEMPTS env
                     /\ bcrypt_compare (Str (Dashboard.passwordInput l)) = Some true)).
Proof.
  unfold Dashboard.unlock_request.
  destruct (String.eqb_spec (Dashboard.passwordInput l) "") as [E|E];
    (split; [intros H; try reflexivity; congruence|]); intros H; [congruence|].
  eexists. split; [reflexivity|].
  set (header := match authToken with Some t => t | None => "" end).
  set (req := Request k None (Some header) None
                (Object [("password", Str (Dashboard.passwordInput l))]) "" "" None).
  assert (P : property (body req) "password" = Str (Dashboard.passwordInput l))
    by reflexivity.
  assert (T : truthy (Str (Dashboard.passwordInput l)) = true).
  { cbn [truthy]. apply negb_true_iff. now apply String.eqb_neq. }
  assert (G : authenticateToken req st
              = if String.eqb header "" then Rejected (status_message 401 "Authentication token required")
                else if bool_decide (header ∈ authenticatedUsers st) then Authenticated header
                else Rejected (status_message 403 "Invalid or expired token")).
  { unfold authenticateToken.
    change (bearer_token req)
      with (if String.eqb header "" then @None qsval else Some (QString header)).
    destruct (String.eqb header "") eqn:Eh; [reflexivity|].
    cbn [no_token has_token]. rewrite Eh.
    now destruct (bool_decide (header ∈ authenticatedUsers st)). }
  cbn [handle]. unfold behind_gateway. rewrite G.
  destruct (String.eqb_spec header "") as [Eh|Eh].
  { cbn [fst status status_message]. split; [discriminate|]. split; [reflexivity|].
    split; [reflexivity|]. intros U.
    change (Dashboard.isUnlocked (Dashboard.handleUnlock
              (status_message 401 "Authentication token required") l))
      with (Dashboard.isUnlocked l).
    rewrite U. split; [discriminate|].
    intros (t & -> & Ht & _). now subst header. }
  destruct (bool_decide (header ∈ authenticatedUsers st)) eqn:M.
  2:{ cbn [fst status status_message]. split; [discriminate|]. split; [reflexivity|].
      split; [intros ->; now subst header|]. intros U.
      change (Dashboard.isUnlocked (Dashboard.handleUnlock
                (status_message 403 "Invalid or expired token") l))
        with (Dashboard.isUnlocked l).
      rewrite U. split; [discriminate|].
      intros (t & -> & _ & Ht & _). subst header.
      apply bool_decide_eq_false in M. contradiction. }
  apply bool_decide_eq_true in M.
  assert (A : authToken = Some header).
  { subst header. destruct authToken; [reflexivity | congruence]. }
  destruct (admin_cases env store bcrypt_compare header req st)
    as [_ [(H1 & R & _)
          |[(H1 & F & R & _)
          |[(H1 & _ & B & R & _)
          |[(H1 & _ & B & R & _)
          |(H1 & _ & B & R & _)]]]]];
    try (rewrite P, T in F; discriminate F);
    rewrite R; try rewrite P in B;
    (split; [discriminate|]); (split; [reflexivity|]);
    (split; [intros N; congruence|]); intros U.
  - change (Dashboard.isUnlocked (Dashboard.handleUnlock (status_message 429 ?m) l))
      with (Dashboard.isUnlocked l).
    rewrite U. split; [discriminate|].
    intros (t & Et & _ & _ & Hc & _). rewrite A in Et. injection Et as <-. lia.
  - split; [|reflexivity]. intros _. exists header. auto.
  - change (Dashboard.isUnlocked (Dashboard.handleUnlock (status_message 403 ?m) l))
      with (Dashboard.isUnlocked l).
    rewrite U. split; [discriminate|].
    intros (t & _ & _ & _ & _ & Hb). congruence.
  - change (Dashboard.isUnlocked (Dashboard.handleUnlock (status_message 500 ?m) l))
      with (Dashboard.isUnlocked l).
    rewrite U. split; [discriminate|].
    intros (t & _ & _ & _ & _ & Hb). congruence.
Qed.

Lemma password_section_unlocks_witness :
  let l := Dashboard.Lock false (Str "") "admin" in
  exists req,
    Dashboard.unlock_request "10.0.0.7" (Some "user_2_6_4_8") l = Some req
    /\ Dashboard.isUnlocked
         (Dashboard.handleUnlock
            (fst (handle default_env no_records sample_bcrypt POST_admin_check_password req
                    (logged_in ∅))) l) = true.
Proof.
  intros l.
  assert (H : Dashboard.passwordInput l <> "") by discriminate.
  destruct (proj2 (password_section_unlocks default_env unit no_records sample_bcrypt
                     (logged_in ∅) "10.0.0.7" (Some "user_2_6_4_8") l) H)
    as (req & E & _ & _ & _ & U).
  exists req. split; [exact E|]. apply U; [reflexivity|].
  exists "user_2_6_4_8". split; [reflexivity|]. split; [discriminate|].
  split; [|split].
  - apply (bool_decide_eq_true_1 ("user_2_6_4_8" ∈ authenticatedUsers (logged_in ∅))).
    vm_compute. reflexivity.
  - vm_compute. reflexivity.
  - reflexivity.
Defined.

(** ** The two columns *)

(** X21.  Each name GET /files lists is shown in exactly one of the two
    columns, as many times as it is listed: the picture column and the file
    column together are a rearrangement of the listing.  A column keeps the
    order of the listing, and a column whose filter is anything but
    [image] shows what the file column shows. *)
Theorem columns_split_the_listing (fileTypeFilter : string) (fileList : list string) :
  Homepage.filterFiles "image" fileList ++ Homepage.filterFiles "other" fileList
    ≡ₚ fileList
  /\ Homepage.filterFiles fileTypeFilter fileList `sublist_of` fileList
  /\ (fileTypeFilter <> "image" ->
      Homepage.filterFiles fileTypeFilter fileList = Homepage.filterFiles "other" fileList).
Proof.
  unfold Homepage.filterFiles. split; [|split].
  - induction fileList as [|x l IH]; [reflexivity|]. cbn [List.filter].
    change (Homepage.keeps "image" x) with (Homepage.isImage x).
    change (Homepage.keeps "other" x) with (negb (Homepage.isImage x)).
    destruct (Homepage.isImage x); cbn [negb app].
    + now constructor.
    + rewrite <- Permutation_middle. now constructor.
  - induction fileList as [|x l IH]; [constructor|]. cbn [List.filter].
    destruct (Homepage.keeps fileTypeFilter x); now constructor.
  - intros H. apply filter_ext. intros x. unfold Homepage.keeps.
    apply String.eqb_neq in H. now rewrite H.
Qed.

Lemma columns_split_the_listing_witness :
  Homepage.filterFiles "video" ["a.png"; "b.txt"; "c.JPG"; "b.txt"] = ["b.txt"; "b.txt"]
  /\ Homepage.filterFiles "image" ["a.png"; "b.txt"; "c.JPG"; "b.txt"] = ["a.png"; "c.JPG"].
Proof.
  split; [|reflexivity].
  rewrite (proj2 (proj2 (columns_split_the_listing "video"
                           ["a.png"; "b.txt"; "c.JPG"; "b.txt"]))); [reflexivity|].
  discriminate.
Defined.
